(** * bingo: offspring generation (VarOr) and acyclic-graph programs (AGraph)

    A shallow embedding of [bingo/EA/VarOr.py] and
    [bingo/SymbolicRegression/AGraph/AGraph.py].

    Python floats are IEEE binary64 numbers: they are embedded as Rocq's
    primitive [float], whose comparison and addition are the same operations.
    Python integers (and the [int64] entries of a command array, none of which
    is ever made larger than the number of rows by the code below) are [Z].
    Exceptions are values of [Py.exn]; mutable objects are threaded through an
    explicit world, in a monad in which a raised exception keeps the world
    reached so far, as in Python. *)

From Stdlib Require Import ZArith String Ascii Floats DecimalString Lia.
From stdpp Require Import base list strings.

(* ===================================================================== *)
(** ** Python preliminaries *)
(* ===================================================================== *)

Module Py.

(** Instances of Python's [Exception]: a class, the text [str(ex)] and the
    link [__context__] that Python sets on an exception raised while another
    one is being handled. *)
Inductive exn_class : Type :=
| ValueError
| IndexError
| KeyError
| RuntimeError
| OtherError (name : string).

#[warnings="-register-all"]
Inductive exn : Type :=
| Raised (kind : exn_class) (text : string) (context : option exn).

(** An exception raised where none is being handled. *)
Definition Exn (kind : exn_class) (text : string) : exn := Raised kind text None.

Definition exn_kind (e : exn) : exn_class :=
  match e with Raised kind _ _ => kind end.

Definition exn_str (e : exn) : string :=
  match e with Raised _ text _ => text end.

Definition exn_context (e : exn) : option exn :=
  match e with Raised _ _ context => context end.

(** [e], raised while [handled] was being handled. *)
Definition with_context (handled e : exn) : exn :=
  match e with Raised kind text _ => Raised kind text (Some handled) end.

(** What a call does: it returns a value or it raises. *)
Inductive outcome (A : Type) : Type :=
| Returns (a : A)
| Raises (e : exn).
Arguments Returns {A} a.
Arguments Raises {A} e.

Definition returned {A : Type} (o : outcome A) : bool :=
  match o with Returns _ => true | Raises _ => false end.

(** Computations over a world [W] of mutable objects. *)
Definition M (W A : Type) : Type := W -> outcome A * W.

Definition ret {W A : Type} (a : A) : M W A := fun w => (Returns a, w).

Definition raise {W A : Type} (e : exn) : M W A := fun w => (Raises e, w).

Definition bind {W A B : Type} (m : M W A) (k : A -> M W B) : M W B :=
  fun w =>
    match m w with
    | (Returns a, w') => k a w'
    | (Raises e, w') => (Raises e, w')
    end.

Definition lift {W A : Type} (o : outcome A) : M W A := fun w => (o, w).

Definition gets {W A : Type} (f : W -> A) : M W A := fun w => (Returns (f w), w).

Definition modify {W : Type} (f : W -> W) : M W unit := fun w => (Returns tt, f w).

(** [try: m  except Exception as ex: handler ex]. An exception that leaves
    the handler was raised while [ex] was being handled. *)
Definition try_except {W A : Type} (m : M W A) (handler : exn -> M W A) : M W A :=
  fun w =>
    match m w with
    | (Returns a, w') => (Returns a, w')
    | (Raises e, w') =>
        match handler e w' with
        | (Returns a, w'') => (Returns a, w'')
        | (Raises e', w'') => (Raises (with_context e e'), w'')
        end
    end.

Declare Scope py_scope.
Delimit Scope py_scope with py.
Notation "'let*' x ':=' m 'in' k" := (bind m (fun x => k))
  (at level 10, x name, m at level 100, k at level 200) : py_scope.
Notation "m '>>' k" := (bind m (fun _ => k))
  (at level 90, right associativity) : py_scope.

(** [for i in range(start, start + count): body i] *)
Fixpoint for_range {W : Type} (body : nat -> M W unit) (start count : nat)
  : M W unit :=
  match count with
  | O => ret tt
  | S count' => bind (body start) (fun _ => for_range body (S start) count')
  end.

(** [l[k]] on a Python list: a negative index counts from the end. *)
Definition py_getitem {A : Type} (l : list A) (k : Z) : outcome A :=
  let n := Z.of_nat (length l) in
  let k' := if (k <? 0)%Z then (k + n)%Z else k in
  if ((0 <=? k') && (k' <? n))%Z
  then match l !! Z.to_nat k' with
       | Some a => Returns a
       | None => Raises (Exn IndexError "list index out of range")
       end
  else Raises (Exn IndexError "list index out of range").

(** [a[i]] and [a[i] = v] on a one-dimensional array, for an index [i]
    produced by [range] or [enumerate] (never negative). *)
Definition np_getitem {A : Type} (a : list A) (i : nat) : outcome A :=
  match a !! i with
  | Some v => Returns v
  | None => Raises (Exn IndexError "index is out of bounds")
  end.

Definition np_setitem {A : Type} (a : list A) (i : nat) (v : A) : outcome (list A) :=
  if (i <? length a)%nat then Returns (<[i := v]> a)
  else Raises (Exn IndexError "index is out of bounds").

(** [np.zeros(n, bool)] *)
Definition np_zeros (n : Z) : list bool := replicate (Z.to_nat n) false.

(** ["%d" % z] and ["{}".format(z)] for an integer. *)
Definition str_of_int (z : Z) : string := NilZero.string_of_int (Z.to_int z).

(** Modelled from the spec: the decorator [argument_validation] of
    [bingo.Util.ArgumentValidation], which is not among the sources. Each
    listed bound is checked before the decorated body runs, and a violated
    bound makes the call fail at once. The class and the text of the error are
    not given by the spec; it is taken to be a [ValueError]. *)
Definition validation_error : exn := Exn ValueError "argument validation".

Definition argument_validation {W : Type} (holds : bool) : M W unit :=
  if holds then ret tt else raise validation_error.

End Py.

Import Py.
Local Open Scope py_scope.

(* ===================================================================== *)
(** ** bingo/EA/VarOr.py *)
(* ===================================================================== *)

Module VarOr.

(** Modelled from the spec: the chromosome interface of [bingo.Base], which
    is not among the sources. [VarOr] only copies individuals and assigns
    their [fit_set] attribute; a copy is deep, so it is a value of its own. *)
Class Chromosome (C : Type) : Type := {
  copy : C -> C;
  fit_set : C -> bool;
  set_fit_set : bool -> C -> C;
  fit_set_assigned : forall (b : bool) (c : C), fit_set (set_fit_set b c) = b
}.

(** The process-wide random source [np.random]: [rand()] draws a float
    (in [0,1), which nothing below depends on), [randint(high)] an integer in
    [0, high) when there is one. *)
Class NumpyRandom (rng : Type) : Type := {
  rand_draw : rng -> float * rng;
  randint_draw : Z -> rng -> Z * rng;
  randint_draw_range :
    forall (high : Z) (g : rng),
      (0 < high)%Z -> (0 <= fst (randint_draw high g) < high)%Z
}.

(** Which of the three branches of the loop body produced a slot. *)
Inductive path : Type := Mutation | Crossover | Replication.

Definition path_eqb (p q : path) : bool :=
  match p, q with
  | Mutation, Mutation | Crossover, Crossover | Replication, Replication => true
  | _, _ => false
  end.

Section Variation.
Context {C : Type} `{Chromosome C} {rng : Type} `{NumpyRandom rng}.

(** The crossover and mutation operators are opaque callables: a call
    returns or raises, and may draw from the same random source. *)
Record VarOr : Type := {
  _crossover : C -> C -> rng -> outcome (C * C) * rng;
  _mutation : C -> rng -> outcome C * rng;
  _crossover_probability : float;
  _mutation_probability : float;
  _replication_probability : float
}.

(** The mutable objects of a call: the random source, the two flag arrays
    ([self.crossover_offspring], [self.mutation_offspring]) and the list
    [offspring]. [history] is a ghost record of the draw and of the branch
    of every slot that was completed. *)
Record world : Type := {
  random_state : rng;
  crossover_offspring : list bool;
  mutation_offspring : list bool;
  offspring : list C;
  history : list (float * path)
}.

Definition with_random_state (g : rng) (w : world) : world :=
  {| random_state := g;
     crossover_offspring := crossover_offspring w;
     mutation_offspring := mutation_offspring w;
     offspring := offspring w;
     history := history w |}.

Definition with_crossover_offspring (a : list bool) (w : world) : world :=
  {| random_state := random_state w;
     crossover_offspring := a;
     mutation_offspring := mutation_offspring w;
     offspring := offspring w;
     history := history w |}.

Definition with_mutation_offspring (a : list bool) (w : world) : world :=
  {| random_state := random_state w;
     crossover_offspring := crossover_offspring w;
     mutation_offspring := a;
     offspring := offspring w;
     history := history w |}.

Definition with_offspring (l : list C) (w : world) : world :=
  {| random_state := random_state w;
     crossover_offspring := crossover_offspring w;
     mutation_offspring := mutation_offspring w;
     offspring := l;
     history := history w |}.

Definition with_history (h : list (float * path)) (w : world) : world :=
  {| random_state := random_state w;
     crossover_offspring := crossover_offspring w;
     mutation_offspring := mutation_offspring w;
     offspring := offspring w;
     history := h |}.

(** [np.random.rand()] *)
Definition np_random_rand : M world float :=
  fun w =>
    let (u, g) := rand_draw (random_state w) in
    (Returns u, with_random_state g w).

(** [np.random.randint(high)]: numpy refuses an empty range. *)
Definition np_random_randint (high : Z) : M world Z :=
  fun w =>
    if (high <=? 0)%Z then (Raises (Exn ValueError "high <= 0"), w)
    else
      let (k, g) := randint_draw high (random_state w) in
      (Returns k, with_random_state g w).

(** Calls of the two operators. *)
Definition call_mutation (self : VarOr) (parent : C) : M world C :=
  fun w =>
    let (mutant, g) := _mutation self parent (random_state w) in
    (mutant, with_random_state g w).

Definition call_crossover (self : VarOr) (parent_1 parent_2 : C) : M world (C * C) :=
  fun w =>
    let (children, g) := _crossover self parent_1 parent_2 (random_state w) in
    (children, with_random_state g w).

(** Ghost: note the draw and the branch of a completed slot. *)
Definition note (u : float) (p : path) : M world unit :=
  modify (fun w => with_history (history w ++ [(u, p)]) w).

Definition __init__
    (crossover : C -> C -> rng -> outcome (C * C) * rng)
    (mutation : C -> rng -> outcome C * rng)
    (crossover_probability mutation_probability : float) : outcome VarOr :=
  if negb ((0 <=? crossover_probability)%float
           && (crossover_probability <=? 1)%float)
  then Raises validation_error
  else if negb ((0 <=? mutation_probability)%float
                && (mutation_probability <=? 1)%float)
  then Raises validation_error
  else if (1 <? crossover_probability + mutation_probability)%float
  then Raises (Exn ValueError
         "The sum of crossover and mutation probabilities must be less than or equal to 1.0")
  else Returns
         {| _crossover := crossover;
            _mutation := mutation;
            _crossover_probability := crossover_probability;
            _mutation_probability := mutation_probability;
            _replication_probability :=
              (1 - crossover_probability - mutation_probability)%float |}.

Definition _get_random_parent (population : list C) : M world C :=
  let* k := np_random_randint (Z.of_nat (length population)) in
  let* parent := lift (py_getitem population k) in
  ret (copy parent).

Definition _append_new_individual_to_offspring (child : C) : M world unit :=
  modify (fun w => with_offspring (offspring w ++ [set_fit_set false child]) w).

Definition _do_mutation (self : VarOr) (population : list C) (i : nat)
  : M world unit :=
  let* parent := _get_random_parent population in
  let* mutant := call_mutation self parent in
  _append_new_individual_to_offspring mutant >>
  let* flags := gets mutation_offspring in
  let* flags' := lift (np_setitem flags i true) in
  modify (with_mutation_offspring flags').

Definition _do_crossover (self : VarOr) (population : list C) (i : nat)
  : M world unit :=
  let* parent_1 := _get_random_parent population in
  let* parent_2 := _get_random_parent population in
  let* children := call_crossover self parent_1 parent_2 in
  _append_new_individual_to_offspring (fst children) >>
  let* flags := gets crossover_offspring in
  let* flags' := lift (np_setitem flags i true) in
  modify (with_crossover_offspring flags').

Definition _do_replication (population : list C) : M world unit :=
  let* child := _get_random_parent population in
  _append_new_individual_to_offspring child.

(** The body of the loop of [__call__], for slot [i]. *)
Definition slot (self : VarOr) (population : list C) (i : nat) : M world unit :=
  let* choice := np_random_rand in
  if (choice <=? _mutation_probability self)%float then
    _do_mutation self population i >> note choice Mutation
  else if (choice <=? _mutation_probability self + _crossover_probability self)%float then
    _do_crossover self population i >> note choice Crossover
  else
    _do_replication population >> note choice Replication.

Definition __call__ (self : VarOr) (population : list C) (number_offspring : Z)
  : M world (list C) :=
  argument_validation (0 <=? number_offspring)%Z >>
  modify (fun w => with_history [] (with_offspring [] w)) >>
  modify (with_crossover_offspring (np_zeros number_offspring)) >>
  modify (with_mutation_offspring (np_zeros number_offspring)) >>
  for_range (slot self population) 0 (Z.to_nat number_offspring) >>
  gets offspring.

(** The partition of the unit interval, in the words of the
    specification. *)
Definition partition (pm pc u : float) (p : path) : Prop :=
  ((u <=? pm)%float = true -> p = Mutation)
  /\ ((pm <? u)%float = true -> (u <=? pm + pc)%float = true -> p = Crossover)
  /\ ((u <=? pm)%float = false -> (u <=? pm + pc)%float = false -> p = Replication).

(** The world in which the loop of [__call__] starts: an empty offspring
    list and two arrays of [number_offspring] zeros. *)
Definition at_loop_start (number_offspring : Z) (w : world) : world :=
  with_mutation_offspring (np_zeros number_offspring)
    (with_crossover_offspring (np_zeros number_offspring)
       (with_history [] (with_offspring [] w))).

(** Both operators return, whatever they are called with. *)
Definition operators_return (self : VarOr) : Prop :=
  (forall (parent : C) (g : rng),
      exists (mutant : C) (g' : rng), _mutation self parent g = (Returns mutant, g'))
  /\ (forall (parent_1 parent_2 : C) (g : rng),
        exists (children : C * C) (g' : rng),
          _crossover self parent_1 parent_2 g = (Returns children, g')).

(** A probability accepted by the validation of [__init__]. *)
Definition in_unit_interval (p : float) : bool :=
  ((0 <=? p) && (p <=? 1))%float.

(** The state of a call that asked for [n] offspring, after [k] slots were
    completed: one offspring and one history entry per completed slot, no
    offspring with its fitness set, flag arrays of length [n] that mark the
    branch of every completed slot and are still false elsewhere. *)
Definition consistent (self : VarOr) (n k : nat) (w : world) : Prop :=
  length (history w) = k
  /\ length (offspring w) = k
  /\ length (mutation_offspring w) = n
  /\ length (crossover_offspring w) = n
  /\ Forall (fun c => fit_set c = false) (offspring w)
  /\ (forall (i : nat) (u : float) (p : path),
        history w !! i = Some (u, p) ->
        partition (_mutation_probability self) (_crossover_probability self) u p
        /\ mutation_offspring w !! i = Some (path_eqb p Mutation)
        /\ crossover_offspring w !! i = Some (path_eqb p Crossover))
  /\ (forall i : nat,
        (k <= i < n)%nat ->
        mutation_offspring w !! i = Some false
        /\ crossover_offspring w !! i = Some false).

End Variation.

Arguments VarOr C rng : clear implicits.
Arguments world C rng : clear implicits.

End VarOr.


(* ===================================================================== *)
(** ** bingo/SymbolicRegression/AGraph/AGraph.py *)
(* ===================================================================== *)

Module AGraph.

(** One row [(node, param1, param2)] of the Nx3 integer command array. *)
Record command : Type := Command { node : Z; param1 : Z; param2 : Z }.

(** The execution backend ([bingocpp] or the Python [Backend] module,
    neither among the sources): an interface. [X] is the type of input
    matrices, [FX] of evaluation results, [DFX] of derivative matrices. *)
Class Backend (X FX DFX : Type) : Type := {
  backend_get_utilized_commands : list command -> outcome (list bool);
  backend_simplify_and_evaluate :
    list command -> X -> list float -> outcome FX;
  backend_simplify_and_evaluate_with_derivative :
    list command -> X -> list float -> bool -> outcome (FX * DFX)
}.

Definition newline : string := String (ascii_of_nat 10) EmptyString.

(** [str.format] for templates whose replacement fields are all empty
    braces: each field takes the next argument, a doubled brace stands for a
    brace, a single brace on its own is an error, and arguments left over are
    ignored. *)
Definition prepend (c : ascii) (o : outcome string) : outcome string :=
  match o with
  | Returns s => Returns (String c s)
  | Raises e => Raises e
  end.

Fixpoint format (template : string) (args : list string) : outcome string :=
  match template with
  | EmptyString => Returns EmptyString
  | String "{" (String "}" rest) =>
      match args with
      | a :: args' =>
          match format rest args' with
          | Returns s => Returns (a ++ s)%string
          | Raises e => Raises e
          end
      | [] => Raises (Exn IndexError "Replacement index out of range")
      end
  | String "{" (String "{" rest) => prepend "{" (format rest args)
  | String "}" (String "}" rest) => prepend "}" (format rest args)
  | String "{" _ => Raises (Exn ValueError "Single '{' encountered in format string")
  | String "}" _ => Raises (Exn ValueError "Single '}' encountered in format string")
  | String c rest => prepend c (format rest args)
  end.

Definition STACK_PRINT_MAP : list (Z * string) :=
  [ (2, "({}) + ({})");
    (3, "({}) - ({})");
    (4, "({}) * ({})");
    (5, "({}) / ({}) ");
    (6, "sin ({})");
    (7, "cos ({})");
    (8, "exp ({})");
    (9, "log ({})");
    (10, "({}) ^ ({})");
    (11, "abs ({})");
    (12, "sqrt ({})") ]%Z.

Definition IS_ARITY_2_MAP : list (Z * bool) :=
  [ (0, false); (1, false); (2, true); (3, true); (4, true); (5, true);
    (6, false); (7, false); (8, false); (9, false); (10, true); (11, false);
    (12, false) ]%Z.

Definition IS_TERMINAL_MAP : list (Z * bool) :=
  [ (0, true); (1, true); (2, false); (3, false); (4, false); (5, false);
    (6, false); (7, false); (8, false); (9, false); (10, false); (11, false);
    (12, false) ]%Z.

(** [d[key]] on a dict. *)
Fixpoint dict_getitem {V : Type} (d : list (Z * V)) (key : Z) : outcome V :=
  match d with
  | [] => Raises (Exn KeyError (str_of_int key))
  | (k, v) :: d' => if (k =? key)%Z then Returns v else dict_getitem d' key
  end.

Record AGraph : Type := {
  _command_array : list command;
  _constants : list float;
  _fitness : option float;
  fit_set : bool
}.

Definition with_command_array (a : list command) (self : AGraph) : AGraph :=
  {| _command_array := a;
     _constants := _constants self;
     _fitness := _fitness self;
     fit_set := fit_set self |}.

(** The property [command_array]: getter and setter. *)
Definition command_array (self : AGraph) : list command := _command_array self.

Definition set_command_array (command_array : list command) (self : AGraph) : AGraph :=
  {| _command_array := command_array;
     _constants := _constants self;
     _fitness := None;
     fit_set := false |}.

Definition notify_command_array_modification (self : AGraph) : AGraph :=
  {| _command_array := _command_array self;
     _constants := _constants self;
     _fitness := None;
     fit_set := false |}.

Definition set_local_optimization_params (params : list float) (self : AGraph) : AGraph :=
  {| _command_array := _command_array self;
     _constants := params;
     _fitness := _fitness self;
     fit_set := fit_set self |}.

(** A constant-load whose index is not bound to a constant:
    [param1 == -1 or param1 >= len(self._constants)]. *)
Definition unbound (self : AGraph) (c : command) : bool :=
  ((param1 c =? -1) || (param1 c >=? Z.of_nat (length (_constants self))))%Z.

(** [np.sum(a != b)] on two arrays of the same shape: the number of
    entries at which they differ. *)
Definition row_differences (a b : command) : Z :=
  (Z.b2z (negb (node a =? node b))
   + Z.b2z (negb (param1 a =? param1 b))
   + Z.b2z (negb (param2 a =? param2 b)))%Z.

Fixpoint sum_differences (a b : list command) : Z :=
  match a, b with
  | ra :: a', rb :: b' => (row_differences ra rb + sum_differences a' b')%Z
  | _, _ => 0%Z
  end.

Section Methods.
Context {X FX DFX : Type} `{Backend X FX DFX}.

(** [str(c)] for a constant: Python's rendering of a float. *)
Variable str_of_float : float -> string.

(** What [np.sum(a != b)] does on command arrays with different numbers of
    rows: numpy broadcasts, warns or raises, depending on the shapes and on
    its version. [distance] leaves it to numpy. *)
Variable np_sum_not_equal_mismatched : list command -> list command -> outcome Z.

Definition get_utilized_commands : M AGraph (list bool) :=
  fun self => (backend_get_utilized_commands (_command_array self), self).

(** [self._command_array[i]] and [self._command_array[i] = c]. *)
Definition row (i : nat) : M AGraph command :=
  fun self => (np_getitem (_command_array self) i, self).

Definition set_row (i : nat) (c : command) : M AGraph unit :=
  fun self =>
    match np_setitem (_command_array self) i c with
    | Returns a => (Returns tt, with_command_array a self)
    | Raises e => (Raises e, self)
    end.

(** The rest of the loop of [needs_local_optimization], from row [i] on:
    [count] rows are left. *)
Fixpoint needs_local_optimization_from (util : list bool) (i count : nat)
  : M AGraph bool :=
  match count with
  | O => ret false
  | S count' =>
      let* u := lift (np_getitem util i) in
      if (u : bool) then
        let* c := row i in
        if (node c =? 1)%Z then
          let* self := gets id in
          if unbound self c then ret true
          else needs_local_optimization_from util (S i) count'
        else needs_local_optimization_from util (S i) count'
      else needs_local_optimization_from util (S i) count'
  end.

Definition needs_local_optimization : M AGraph bool :=
  let* util := get_utilized_commands in
  let* n := gets (fun self => length (_command_array self)) in
  needs_local_optimization_from util 0 n.

(** The rest of the loop of [get_number_local_optimization_params]. *)
Fixpoint count_and_bind_from (util : list bool) (const_num : Z) (i count : nat)
  : M AGraph Z :=
  match count with
  | O => ret const_num
  | S count' =>
      let* u := lift (np_getitem util i) in
      if (u : bool) then
        let* c := row i in
        if (node c =? 1)%Z then
          set_row i (Command 1 const_num const_num) >>
          count_and_bind_from util (const_num + 1)%Z (S i) count'
        else count_and_bind_from util const_num (S i) count'
      else count_and_bind_from util const_num (S i) count'
  end.

Definition get_number_local_optimization_params : M AGraph Z :=
  let* util := get_utilized_commands in
  let* n := gets (fun self => length (_command_array self)) in
  count_and_bind_from util 0%Z 0 n.

Definition _get_stack_element_string (command_index : nat) : M AGraph string :=
  let* c := row command_index in
  let* self := gets id in
  let tmp_str := ("(" ++ str_of_int (Z.of_nat command_index) ++ ") <= ")%string in
  let* element :=
    if (node c =? 0)%Z then ret ("X_" ++ str_of_int (param1 c))%string
    else if (node c =? 1)%Z then
      if unbound self c then ret "C"%string
      else
        let* value := lift (py_getitem (_constants self) (param1 c)) in
        ret ("C_" ++ str_of_int (param1 c) ++ " = " ++ str_of_float value)%string
    else
      let* template := lift (dict_getitem STACK_PRINT_MAP (node c)) in
      lift (format template [str_of_int (param1 c); str_of_int (param2 c)])
  in
  ret (tmp_str ++ element ++ newline)%string.

(** [for i, show_command in enumerate(rows_to_show)], from index [i] on. *)
Fixpoint _get_stack_string_from (rows_to_show : list bool) (i : nat) (tmp_str : string)
  : M AGraph string :=
  match rows_to_show with
  | [] => ret tmp_str
  | show_command :: rows =>
      if (show_command : bool) then
        let* s := _get_stack_element_string i in
        _get_stack_string_from rows (S i) (tmp_str ++ s)%string
      else _get_stack_string_from rows (S i) tmp_str
  end.

Definition _get_stack_string (short : bool) : M AGraph string :=
  let* rows_to_show :=
    if short then get_utilized_commands
    else gets (fun self => replicate (length (_command_array self)) true) in
  _get_stack_string_from rows_to_show 0 "".

Definition __str__ : M AGraph string :=
  let print_str := ("---full stack---" ++ newline)%string in
  let* full := _get_stack_string false in
  let print_str := (print_str ++ full)%string in
  let print_str := (print_str ++ "---small stack---" ++ newline)%string in
  let* small := _get_stack_string true in
  ret (print_str ++ small)%string.

(** [LOGGER.error(msg)]: the world of the evaluation methods is the list of
    records the logger has received. *)
Definition LOGGER_error (msg : string) : M (list string) unit :=
  modify (fun records => records ++ [msg]).

Definition _raise_runtime_error {A : Type} (self : AGraph) (ex : exn)
  : M (list string) A :=
  let* s := lift (fst (__str__ self)) in
  LOGGER_error s >>
  LOGGER_error (exn_str ex) >>
  raise (Exn RuntimeError "").

Definition evaluate_equation_at (self : AGraph) (x : X) : M (list string) FX :=
  try_except
    (lift (backend_simplify_and_evaluate (_command_array self) x (_constants self)))
    (fun ex =>
       LOGGER_error "Error in stack evaluation" >>
       _raise_runtime_error self ex).

Definition evaluate_equation_with_x_gradient_at (self : AGraph) (x : X)
  : M (list string) (FX * DFX) :=
  try_except
    (lift (backend_simplify_and_evaluate_with_derivative
             (_command_array self) x (_constants self) true))
    (fun ex =>
       LOGGER_error "Error in stack evaluation/deriv" >>
       _raise_runtime_error self ex).

Definition evaluate_equation_with_local_opt_gradient_at (self : AGraph) (x : X)
  : M (list string) (FX * DFX) :=
  try_except
    (lift (backend_simplify_and_evaluate_with_derivative
             (_command_array self) x (_constants self) false))
    (fun ex =>
       LOGGER_error "Error in stack evaluation/const-deriv" >>
       _raise_runtime_error self ex).

Definition distance (self chromosome : AGraph) : outcome Z :=
  let a := command_array self in
  let b := command_array chromosome in
  if (length a =? length b)%nat then Returns (sum_differences a b)
  else np_sum_not_equal_mismatched a b.

End Methods.

(** *** Vocabulary of the specification *)

(** Row [i] is a utilized constant-load: the liveness vector marks it and its
    opcode is 1. *)
Definition utilized_constant_load (util : list bool) (a : list command) (i : nat) : bool :=
  match util !! i, a !! i with
  | Some true, Some c => (node c =? 1)%Z
  | _, _ => false
  end.

(** The number of utilized constant-loads among the rows [start], ...,
    [start + count - 1]. *)
Definition constant_loads_between (util : list bool) (a : list command)
    (start count : nat) : nat :=
  length (filter (fun j => utilized_constant_load util a j = true) (seq start count)).

(** The rank of row [i] among the utilized constant-loads, in index order:
    how many of them come before it. *)
Definition rank (util : list bool) (a : list command) (i : nat) : nat :=
  constant_loads_between util a 0 i.

(** The entries of an Nx3 array, row after row, and the number of element
    positions at which two arrays of the same shape differ. *)
Definition entries (a : list command) : list Z :=
  concat (map (fun c => [node c; param1 c; param2 c]) a).

Definition differing_positions (a b : list command) : nat :=
  length (filter (fun xy : Z * Z => fst xy <> snd xy) (zip (entries a) (entries b))).

(** Two command arrays differ in the opcode of row [i] and nowhere else. *)
Definition differ_in_one_opcode (a b : list command) (i : nat) : Prop :=
  length a = length b
  /\ (exists ra rb : command,
        a !! i = Some ra /\ b !! i = Some rb
        /\ node ra <> node rb /\ param1 ra = param1 rb /\ param2 ra = param2 rb)
  /\ (forall j : nat, j <> i -> a !! j = b !! j).

(** The data model of a program: every opcode is one of the thirteen of the
    table, and the index of a constant-load is -1 or a position. *)
Definition well_formed_command (c : command) : bool :=
  ((0 <=? node c) && (node c <=? 12)
   && (negb (node c =? 1) || (-1 <=? param1 c)))%Z.

Definition well_formed (self : AGraph) : Prop :=
  Forall (fun c => well_formed_command c = true) (_command_array self).

End AGraph.


(* ===================================================================== *)
(** ** The rest of AGraph.py: formatted strings and complexity *)
(* ===================================================================== *)

Module AGraphRest.
Import AGraph.

Definition LATEX_PRINT_MAP : list (Z * string) :=
  [ (2, "{} + {}");
    (3, "{} - ({})");
    (4, "({})({})");
    (5, "\frac{{ {} }}{{ {} }}");
    (6, "sin{{ {} }}");
    (7, "cos{{ {} }}");
    (8, "exp{{ {} }}");
    (9, "log{{ {} }}");
    (10, "({})^{{ ({}) }}");
    (11, "|{}|");
    (12, "\sqrt{{ {} }}") ]%Z.

Definition CONSOLE_PRINT_MAP : list (Z * string) :=
  [ (2, "{} + {}");
    (3, "{} - ({})");
    (4, "({})({})");
    (5, "({})/({}) ");
    (6, "sin({})");
    (7, "cos({})");
    (8, "exp({})");
    (9, "log({})");
    (10, "({})^({})");
    (11, "|{}|");
    (12, "sqrt({})") ]%Z.

(** [np.count_nonzero(util)] on a boolean vector. *)
Definition np_count_nonzero (util : list bool) : Z :=
  Z.of_nat (length (filter (fun u : bool => u = true) util)).

Section Methods.
Context {X FX DFX : Type} {the_backend : Backend X FX DFX}.

Variable str_of_float : float -> string.

Definition get_complexity : M AGraph Z :=
  let* util := get_utilized_commands in
  ret (np_count_nonzero util).

(** The operands [str_list[param1]] and [str_list[param2]] are both read
    before the template is filled, whatever the arity of the operator. *)
Definition _get_formatted_element_string (command_index : nat)
    (str_list : list string) (format_dict : list (Z * string)) : M AGraph string :=
  let* c := row command_index in
  let* self := gets id in
  if (node c =? 0)%Z then ret ("X_" ++ str_of_int (param1 c))%string
  else if (node c =? 1)%Z then
    if unbound self c then ret "?"%string
    else
      let* value := lift (py_getitem (_constants self) (param1 c)) in
      ret (str_of_float value)
  else
    let* template := lift (dict_getitem format_dict (node c)) in
    let* operand_1 := lift (py_getitem str_list (param1 c)) in
    let* operand_2 := lift (py_getitem str_list (param2 c)) in
    lift (format template [operand_1; operand_2]).

(** [for i, show_command in enumerate(utilized_rows)], from index [i] on. *)
Fixpoint _get_formatted_string_from (utilized_rows : list bool) (i : nat)
    (str_list : list string) (format_dict : list (Z * string))
  : M AGraph (list string) :=
  match utilized_rows with
  | [] => ret str_list
  | show_command :: rows =>
      if (show_command : bool) then
        let* tmp_str := _get_formatted_element_string i str_list format_dict in
        _get_formatted_string_from rows (S i) (str_list ++ [tmp_str]) format_dict
      else
        _get_formatted_string_from rows (S i) (str_list ++ [""%string]) format_dict
  end.

Definition _get_formatted_string_using (format_dict : list (Z * string))
  : M AGraph string :=
  let* utilized_rows := get_utilized_commands in
  let* str_list := _get_formatted_string_from utilized_rows 0 [] format_dict in
  lift (py_getitem str_list (-1)).

Definition get_latex_string : M AGraph string :=
  _get_formatted_string_using LATEX_PRINT_MAP.

Definition get_console_string : M AGraph string :=
  _get_formatted_string_using CONSOLE_PRINT_MAP.

End Methods.

(** *** Vocabulary *)

(** The indices of the utilized constant-loads, in index order. *)
Definition constant_load_rows (util : list bool) (a : list command) : list nat :=
  filter (fun j => utilized_constant_load util a j = true) (seq 0 (length a)).

(** Row [i] can be formatted from the strings of the rows before it: its
    opcode is in the table, a constant index is -1 or a position, and both
    parameters of an operator are indices of earlier rows. *)
Definition formattable_row (i : nat) (c : command) : Prop :=
  (0 <= node c <= 12)%Z
  /\ (node c = 1%Z -> (-1 <= param1 c)%Z)
  /\ ((2 <= node c)%Z ->
      (0 <= param1 c < Z.of_nat i)%Z /\ (0 <= param2 c < Z.of_nat i)%Z).

Definition formattable (util : list bool) (a : list command) : Prop :=
  forall (i : nat) (c : command),
    util !! i = Some true -> a !! i = Some c -> formattable_row i c.

(** The opcode of a row is not one of the thirteen of the table. *)
Definition unknown_opcode (c : command) : Prop := (node c < 0 \/ 12 < node c)%Z.

(** A table with a template for every operator, each of which takes two
    arguments. *)
Definition complete_table (format_dict : list (Z * string)) : Prop :=
  forall opcode : Z,
    (2 <= opcode <= 12)%Z ->
    exists template : string,
      dict_getitem format_dict opcode = Returns template
      /\ forall a b : string, exists s : string, format template [a; b] = Returns s.

End AGraphRest.


(* ===================================================================== *)
(** ** Vocabulary for the offspring of VarOr *)
(* ===================================================================== *)

Module VarOrRest.
Import VarOr.

Section Provenance.
Context {C : Type} `{Chromosome C} {rng : Type} `{NumpyRandom rng}.

(** What a branch makes of the population: a mutated copy of a parent, the
    first child of the crossover of two copies, or a copy; in each case with
    the fitness unset. *)
Definition produced_by (self : VarOr C rng) (population : list C)
    (p : path) (child : C) : Prop :=
  match p with
  | Mutation =>
      exists (parent mutant : C) (g g' : rng),
        parent ∈ population
        /\ _mutation self (copy parent) g = (Returns mutant, g')
        /\ child = set_fit_set false mutant
  | Crossover =>
      exists (parent_1 parent_2 child_1 child_2 : C) (g g' : rng),
        parent_1 ∈ population /\ parent_2 ∈ population
        /\ _crossover self (copy parent_1) (copy parent_2) g
           = (Returns (child_1, child_2), g')
        /\ child = set_fit_set false child_1
  | Replication =>
      exists parent : C,
        parent ∈ population /\ child = set_fit_set false (copy parent)
  end.

(** Every completed slot has its offspring, made by the branch noted for
    it. *)
Definition traced (self : VarOr C rng) (population : list C) (w : world C rng) : Prop :=
  length (history w) = length (offspring w)
  /\ forall (i : nat) (u : float) (p : path),
       history w !! i = Some (u, p) ->
       exists child : C,
         offspring w !! i = Some child /\ produced_by self population p child.

End Provenance.

End VarOrRest.


(* ===================================================================== *)
(** ** Collaborators used to run the embedding on concrete inputs *)
(* ===================================================================== *)

Module Reference.
Import AGraph.

Definition flag (d : list (Z * bool)) (key : Z) : bool :=
  match dict_getitem d key with
  | Returns b => b
  | Raises _ => false
  end.

(** Modelled from the spec: the liveness vector of the execution backend.
    The last instruction is utilized, and an instruction is utilized when a
    utilized operator with a higher index refers to it. *)
Definition mark_parameters (a : list command) (util : list bool) (i : nat) : list bool :=
  match util !! i, a !! i with
  | Some true, Some c =>
      if flag IS_TERMINAL_MAP (node c) then util
      else
        let util := <[Z.to_nat (param1 c) := true]> util in
        if flag IS_ARITY_2_MAP (node c)
        then <[Z.to_nat (param2 c) := true]> util
        else util
  | _, _ => util
  end.

Definition utilized (a : list command) : list bool :=
  let n := length a in
  fold_left (mark_parameters a) (rev (seq 0 n))
            (<[pred n := true]> (replicate n false)).

(** An array without rows has no last instruction to mark: the assignment to
    the last entry of the liveness list is an [IndexError]. *)
Definition liveness (a : list command) : outcome (list bool) :=
  match a with
  | [] => Raises (Exn IndexError "list assignment index out of range")
  | _ :: _ => Returns (utilized a)
  end.

(** A small interpreter of the arithmetic opcodes, on dual numbers: a value
    and its partial derivatives. It stands for the backend where a concrete
    one is needed; the other opcodes are not implemented by it. *)
Definition dual : Type := (float * list float)%type.

Definition one_hot (width : nat) (j : Z) : list float :=
  map (fun t => if (Z.of_nat t =? j)%Z then 1%float else 0%float) (seq 0 width).

Definition zeros (width : nat) : list float := replicate width 0%float.

Definition arithmetic (opcode : Z) (p q : dual) : outcome dual :=
  let '(v1, g1) := p in
  let '(v2, g2) := q in
  match opcode with
  | 2%Z => Returns ((v1 + v2)%float, zip_with PrimFloat.add g1 g2)
  | 3%Z => Returns ((v1 - v2)%float, zip_with PrimFloat.sub g1 g2)
  | 4%Z => Returns ((v1 * v2)%float,
                    zip_with (fun d1 d2 => (d1 * v2 + v1 * d2)%float) g1 g2)
  | 5%Z => Returns ((v1 / v2)%float,
                    zip_with (fun d1 d2 => ((d1 * v2 - v1 * d2) / (v2 * v2))%float) g1 g2)
  | _ => Raises (Exn (OtherError "NotImplementedError") "opcode not implemented")
  end.

Definition execute (constants row : list float) (with_respect_to_x : bool)
    (values : list dual) (c : command) : outcome dual :=
  let width := if with_respect_to_x then length row else length constants in
  if (node c =? 0)%Z then
    match py_getitem row (param1 c) with
    | Returns v =>
        Returns (v, if with_respect_to_x then one_hot width (param1 c) else zeros width)
    | Raises e => Raises e
    end
  else if (node c =? 1)%Z then
    match py_getitem constants (param1 c) with
    | Returns v =>
        Returns (v, if with_respect_to_x then zeros width else one_hot width (param1 c))
    | Raises e => Raises e
    end
  else
    match py_getitem values (param1 c), py_getitem values (param2 c) with
    | Returns p, Returns q => arithmetic (node c) p q
    | Raises e, _ | _, Raises e => Raises e
    end.

Fixpoint run (constants row : list float) (with_respect_to_x : bool)
    (rows : list (bool * command)) (values : list dual) : outcome dual :=
  match rows with
  | [] => py_getitem values (-1)
  | (false, _) :: rows' =>
      run constants row with_respect_to_x rows' (values ++ [(0%float, [])])
  | (true, c) :: rows' =>
      match execute constants row with_respect_to_x values c with
      | Returns d => run constants row with_respect_to_x rows' (values ++ [d])
      | Raises e => Raises e
      end
  end.

Fixpoint run_all (a : list command) (constants : list float) (with_respect_to_x : bool)
    (x : list (list float)) : outcome (list dual) :=
  match x with
  | [] => Returns []
  | row :: x' =>
      match run constants row with_respect_to_x (zip (utilized a) a) [] with
      | Returns d =>
          match run_all a constants with_respect_to_x x' with
          | Returns ds => Returns (d :: ds)
          | Raises e => Raises e
          end
      | Raises e => Raises e
      end
  end.

Definition simplified (a : list command) (constants : list float)
    (with_respect_to_x : bool) (x : list (list float)) : outcome (list dual) :=
  match liveness a with
  | Returns _ => run_all a constants with_respect_to_x x
  | Raises e => Raises e
  end.

Definition simplify_and_evaluate (a : list command) (x : list (list float))
    (constants : list float) : outcome (list float) :=
  match simplified a constants true x with
  | Returns ds => Returns (map fst ds)
  | Raises e => Raises e
  end.

Definition simplify_and_evaluate_with_derivative (a : list command)
    (x : list (list float)) (constants : list float) (with_respect_to_x : bool)
  : outcome (list float * list (list float)) :=
  match simplified a constants with_respect_to_x x with
  | Returns ds => Returns (map fst ds, map snd ds)
  | Raises e => Raises e
  end.

#[export] Instance backend : Backend (list (list float)) (list float) (list (list float)) := {
  backend_get_utilized_commands := liveness;
  backend_simplify_and_evaluate := simplify_and_evaluate;
  backend_simplify_and_evaluate_with_derivative := simplify_and_evaluate_with_derivative
}.

(** A rendering of the few floats the examples print. *)
Definition str_of_float (v : float) : string :=
  if (v =? 2)%float then "2.0"
  else if (v =? 5)%float then "5.0"
  else "<float>".

(** numpy on arrays of different heights, in the examples: an array of one
    row is broadcast, compared with every row of the other, and the differing
    entries are counted; arrays of other heights cannot be broadcast together,
    an error. *)
Definition np_sum_not_equal_mismatched (a b : list command) : outcome Z :=
  match a, b with
  | [row], _ => Returns (sum_differences (replicate (length b) row) b)
  | _, [row] => Returns (sum_differences a (replicate (length a) row))
  | _, _ => Raises (Exn ValueError "operands could not be broadcast together")
  end.

(** [AGraph] as a chromosome: a copy is the same value, held apart. *)
#[export] Instance chromosome : VarOr.Chromosome AGraph := {
  VarOr.copy self := self;
  VarOr.fit_set := fit_set;
  VarOr.set_fit_set b self :=
    {| _command_array := _command_array self;
       _constants := _constants self;
       _fitness := _fitness self;
       fit_set := b |};
  VarOr.fit_set_assigned b self := eq_refl
}.

(** A scripted random source: the draws are read off two tapes. *)
Record script : Type := { floats : list float; integers : list Z }.

Definition script_rand (g : script) : float * script :=
  match floats g with
  | u :: us => (u, {| floats := us; integers := integers g |})
  | [] => (0%float, g)
  end.

Definition script_randint (high : Z) (g : script) : Z * script :=
  match integers g with
  | k :: ks => ((k mod high)%Z, {| floats := floats g; integers := ks |})
  | [] => (0%Z, g)
  end.

Lemma script_randint_range (high : Z) (g : script) :
  (0 < high)%Z -> (0 <= fst (script_randint high g) < high)%Z.
Proof.
  intros Hhigh. unfold script_randint.
  destruct (integers g) as [|k ks]; simpl; [lia|].
  apply Z.mod_pos_bound. assumption.
Qed.

#[export] Instance scripted : VarOr.NumpyRandom script := {
  VarOr.rand_draw := script_rand;
  VarOr.randint_draw := script_randint;
  VarOr.randint_draw_range := script_randint_range
}.

(** Two operators: the mutation assigns a new command array (through the
    setter), the crossover exchanges the constants and the command arrays. *)
Definition mutation (parent : AGraph) (g : script) : outcome AGraph * script :=
  (Returns (set_command_array (_command_array parent ++ [Command 6 0 0]) parent), g).

Definition crossover (parent_1 parent_2 : AGraph) (g : script)
  : outcome (AGraph * AGraph) * script :=
  (Returns (set_command_array (_command_array parent_2) parent_1,
            set_command_array (_command_array parent_1) parent_2), g).

(** [c_0 + c_1], with a dead row in front; and [x_0]. *)
Definition sum_of_constants : AGraph :=
  {| _command_array := [Command 0 0 0; Command 1 (-1) (-1); Command 1 (-1) (-1);
                        Command 2 1 2];
     _constants := [];
     _fitness := Some 0.5%float;
     fit_set := true |}.

Definition variable : AGraph :=
  {| _command_array := [Command 0 0 0];
     _constants := [];
     _fitness := None;
     fit_set := false |}.

(** The same program with the opcode of its last row changed. *)
Definition difference_of_constants : AGraph :=
  {| _command_array := [Command 0 0 0; Command 1 (-1) (-1); Command 1 (-1) (-1);
                        Command 3 1 2];
     _constants := [];
     _fitness := None;
     fit_set := false |}.

(** A variation with [pc = 0.25] and [pm = 0.5], a population of two (one of
    them with its fitness set), and a random source whose three draws fall on
    the boundary of mutation, on the boundary of crossover, and beyond. *)
Definition variation : VarOr.VarOr AGraph script :=
  {| VarOr._crossover := crossover;
     VarOr._mutation := mutation;
     VarOr._crossover_probability := 0.25%float;
     VarOr._mutation_probability := 0.5%float;
     VarOr._replication_probability := 0.25%float |}.

Definition population : list AGraph := [sum_of_constants; variable].

Definition before : VarOr.world AGraph script :=
  {| VarOr.random_state :=
       {| floats := [0.5%float; 0.75%float; 0.875%float];
          integers := [0; 1; 0; 3]%Z |};
     VarOr.crossover_offspring := [];
     VarOr.mutation_offspring := [];
     VarOr.offspring := [];
     VarOr.history := [] |}.

End Reference.


(* ===================================================================== *)
(** ** More concrete inputs *)
(* ===================================================================== *)

Module Samples.
Import AGraph.

(** The world a previous call has left: its offspring and its flags are
    still there. *)
Definition left_by_previous_call : VarOr.world AGraph Reference.script :=
  {| VarOr.random_state := VarOr.random_state Reference.before;
     VarOr.crossover_offspring := [true; false];
     VarOr.mutation_offspring := [false; true];
     VarOr.offspring := [Reference.variable; Reference.variable];
     VarOr.history := [(0.75%float, VarOr.Crossover); (0.25%float, VarOr.Mutation)] |}.

(** The binary64 number next above 1/2, that is 1/2 + 2^-53: added to 1/2
    it gives 1 + 2^-53, which rounds to 1. *)
Definition just_above_half : float := 0x1.0000000000001p-1%float.

(** A program with a row whose opcode is not in the table. *)
Definition with_unknown_opcode : AGraph :=
  {| _command_array := [Command 0 0 0; Command 13 0 0];
     _constants := [];
     _fitness := None;
     fit_set := false |}.

(** [c_0 + c_1] as [Reference.sum_of_constants], with another dead row in
    front. *)
Definition sum_after_other_dead_row : AGraph :=
  {| _command_array := [Command 7 9 9; Command 1 (-1) (-1); Command 1 (-1) (-1);
                        Command 2 1 2];
     _constants := [];
     _fitness := None;
     fit_set := false |}.

(** [x_0 * c_0 - x_0], and [x_1 + c_0]: two programs of the same height. *)
Definition product_minus_variable : AGraph :=
  {| _command_array := [Command 0 0 0; Command 1 0 0; Command 4 0 1; Command 3 2 0];
     _constants := [2%float];
     _fitness := None;
     fit_set := false |}.

Definition variable_plus_constant : AGraph :=
  {| _command_array := [Command 0 1 1; Command 1 0 0; Command 2 0 1; Command 2 0 1];
     _constants := [5%float];
     _fitness := None;
     fit_set := false |}.

(** A mutation operator that raises, and the reference variation with it in
    the place of its mutation. *)
Definition failing_mutation (parent : AGraph) (g : Reference.script)
  : Py.outcome AGraph * Reference.script :=
  (Py.Raises (Py.Exn Py.ValueError "no command to mutate"), g).

Definition variation_with_failing_mutation : VarOr.VarOr AGraph Reference.script :=
  {| VarOr._crossover := Reference.crossover;
     VarOr._mutation := failing_mutation;
     VarOr._crossover_probability := 0.25%float;
     VarOr._mutation_probability := 0.5%float;
     VarOr._replication_probability := 0.25%float |}.

(** A program without rows, as [AGraph()] makes it. *)
Definition empty : AGraph :=
  {| _command_array := [];
     _constants := [];
     _fitness := None;
     fit_set := false |}.

End Samples.


(* ===================================================================== *)
(** ** Running sequences of steps *)
(* ===================================================================== *)

Module Steps.

Lemma bind_returns {W A B : Type} (m : M W A) (k : A -> M W B) (w w' : W) (b : B) :
  bind m k w = (Returns b, w') ->
  exists (a : A) (w1 : W), m w = (Returns a, w1) /\ k a w1 = (Returns b, w').
Proof.
  unfold bind. destruct (m w) as [[a|e] w1]; [|discriminate].
  intros Hk. exists a, w1. split; [reflexivity|assumption].
Qed.

Lemma bind_run {W A B : Type} (m : M W A) (k : A -> M W B) (w w1 : W) (a : A) :
  m w = (Returns a, w1) -> bind m k w = k a w1.
Proof. unfold bind. intros ->. reflexivity. Qed.

Lemma for_range_split {W : Type} (body : nat -> M W unit) :
  forall (c1 c2 start : nat) (w w' : W),
    for_range body start (c1 + c2) w = (Returns tt, w') ->
    exists wm : W,
      for_range body start c1 w = (Returns tt, wm)
      /\ for_range body (start + c1) c2 wm = (Returns tt, w').
Proof.
  induction c1 as [|c1 IH]; intros c2 start w w' Hrun.
  - exists w. split; [reflexivity|]. rewrite Nat.add_0_r. exact Hrun.
  - cbn [Nat.add for_range] in Hrun. apply bind_returns in Hrun.
    destruct Hrun as (a & w0 & Hbody & Hrest).
    destruct (IH c2 (S start) w0 w' Hrest) as (wm & Hfirst & Hsecond).
    exists wm. split.
    + cbn [for_range]. rewrite (bind_run _ _ _ _ _ Hbody). exact Hfirst.
    + replace (start + S c1)%nat with (S start + c1)%nat by lia. exact Hsecond.
Qed.

End Steps.

(* ===================================================================== *)
(** ** Properties of AGraph *)
(* ===================================================================== *)

Module AGraphFacts.
Import AGraph Steps.

Lemma with_command_array_twice (a b : list command) (self : AGraph) :
  with_command_array a (with_command_array b self) = with_command_array a self.
Proof. reflexivity. Qed.

Lemma with_command_array_same (self : AGraph) :
  with_command_array (_command_array self) self = self.
Proof. destruct self; reflexivity. Qed.

Lemma constant_loads_between_S (util : list bool) (a : list command) (start count : nat) :
  constant_loads_between util a start (S count)
  = ((if utilized_constant_load util a start then 1 else 0)
     + constant_loads_between util a (S start) count)%nat.
Proof.
  unfold constant_loads_between. simpl seq.
  destruct (utilized_constant_load util a start) eqn:E.
  - rewrite filter_cons_True by assumption. reflexivity.
  - rewrite filter_cons_False by congruence. reflexivity.
Qed.

Lemma constant_loads_between_ext (util : list bool) (a b : list command) (start count : nat) :
  (forall j : nat, utilized_constant_load util a j = utilized_constant_load util b j) ->
  constant_loads_between util a start count = constant_loads_between util b start count.
Proof.
  intros Hext. revert start.
  induction count as [|count IH]; intros start; [reflexivity|].
  rewrite !constant_loads_between_S, Hext, IH. reflexivity.
Qed.

(** Rewriting a constant-load into another constant-load changes no opcode,
    hence not which rows are utilized constant-loads. *)
Lemma utilized_constant_load_insert (util : list bool) (a : list command)
    (i : nat) (c : command) (k1 k2 : Z) (j : nat) :
  a !! i = Some c -> node c = 1%Z ->
  utilized_constant_load util (<[i := Command 1 k1 k2]> a) j
  = utilized_constant_load util a j.
Proof.
  intros Hc Hnode. unfold utilized_constant_load.
  destruct (decide (i = j)) as [->|Hne].
  - rewrite list_lookup_insert_eq by (eapply lookup_lt_Some; eassumption).
    rewrite Hc. simpl. rewrite Hnode. reflexivity.
  - rewrite list_lookup_insert_ne by assumption. reflexivity.
Qed.

(** The loop of [get_number_local_optimization_params], run from row [i]
    with counter [k]: what it returns and what it leaves in the array. *)
Lemma count_and_bind_from_spec (util : list bool) :
  forall (count i : nat) (k : Z) (self : AGraph),
    (i + count)%nat = length (_command_array self) ->
    length util = length (_command_array self) ->
    exists a' : list command,
      count_and_bind_from util k i count self
      = (Returns (k + Z.of_nat (constant_loads_between util (_command_array self) i count))%Z,
         with_command_array a' self)
      /\ length a' = length (_command_array self)
      /\ forall (j : nat) (c : command),
           _command_array self !! j = Some c ->
           a' !! j
           = Some (if ((i <=? j)%nat
                       && utilized_constant_load util (_command_array self) j)%bool
                   then
                     let r := (k + Z.of_nat (constant_loads_between
                                               util (_command_array self) i (j - i)))%Z in
                     Command 1 r r
                   else c).
Proof.
  induction count as [|count IH]; intros i k self Hlen Hutil.
  - exists (_command_array self). simpl.
    rewrite with_command_array_same. unfold ret.
    split; [f_equal; f_equal; unfold constant_loads_between; simpl; lia|].
    split; [reflexivity|].
    intros j c Hj. pose proof (lookup_lt_Some _ _ _ Hj) as Hlt.
    destruct (Nat.leb_spec i j); [lia|]. exact Hj.
  - assert (Hi : (i < length (_command_array self))%nat) by lia.
    destruct (lookup_lt_is_Some_2 util i) as [u Hu]; [lia|].
    destruct (lookup_lt_is_Some_2 (_command_array self) i) as [ci Hci]; [lia|].
    cbn [count_and_bind_from]. unfold bind at 1. unfold lift, np_getitem.
    rewrite Hu.
    assert (Hskip :
      utilized_constant_load util (_command_array self) i = false ->
      exists a' : list command,
        count_and_bind_from util k (S i) count self
        = (Returns (k + Z.of_nat (constant_loads_between
                                    util (_command_array self) i (S count)))%Z,
           with_command_array a' self)
        /\ length a' = length (_command_array self)
        /\ forall (j : nat) (c : command),
             _command_array self !! j = Some c ->
             a' !! j
             = Some (if ((i <=? j)%nat
                         && utilized_constant_load util (_command_array self) j)%bool
                     then
                       let r := (k + Z.of_nat (constant_loads_between
                                                 util (_command_array self) i (j - i)))%Z in
                       Command 1 r r
                     else c)).
    { intros Hno.
      destruct (IH (S i) k self) as (a' & Hrun & Hlen' & Hrows); [lia|assumption|].
      exists a'. rewrite Hrun, constant_loads_between_S, Hno.
      split; [reflexivity|]. split; [assumption|].
      intros j c Hj. rewrite (Hrows j c Hj).
      destruct (decide (j = i)) as [->|Hne].
      - rewrite Hno, !andb_false_r. reflexivity.
      - destruct (Nat.leb_spec (S i) j), (Nat.leb_spec i j); try lia; [|reflexivity].
        replace (j - i)%nat with (S (j - S i)) by lia.
        rewrite constant_loads_between_S, Hno. reflexivity. }
    destruct u.
    + unfold bind at 1. unfold row at 1. unfold np_getitem at 1. rewrite Hci.
      destruct (node ci =? 1)%Z eqn:Hnode.
      * apply Z.eqb_eq in Hnode.
        assert (Hyes : utilized_constant_load util (_command_array self) i = true).
        { unfold utilized_constant_load. rewrite Hu, Hci. apply Z.eqb_eq, Hnode. }
        unfold bind at 1. unfold set_row at 1. unfold np_setitem.
        destruct (Nat.ltb_spec i (length (_command_array self))); [|lia].
        set (a1 := <[i := Command 1 k k]> (_command_array self)).
        destruct (IH (S i) (k + 1)%Z (with_command_array a1 self))
          as (a' & Hrun & Hlen' & Hrows).
        { simpl. unfold a1. rewrite length_insert. lia. }
        { simpl. unfold a1. rewrite length_insert. assumption. }
        simpl _command_array in Hrun, Hlen', Hrows.
        assert (Hsame : forall start n : nat,
                   constant_loads_between util a1 start n
                   = constant_loads_between util (_command_array self) start n).
        { intros start n. apply constant_loads_between_ext. intros j.
          unfold a1. eapply utilized_constant_load_insert; eassumption. }
        exists a'. rewrite Hrun, with_command_array_twice, Hsame.
        rewrite constant_loads_between_S, Hyes.
        split; [f_equal; f_equal; lia|].
        split; [rewrite Hlen'; unfold a1; apply length_insert|].
        intros j c Hj.
        destruct (decide (j = i)) as [->|Hne].
        -- rewrite (Hrows i (Command 1 k k)).
           2:{ unfold a1. apply list_lookup_insert_eq. assumption. }
           destruct (Nat.leb_spec (S i) i); [lia|].
           destruct (Nat.leb_spec i i); [|lia].
           rewrite Hyes. simpl. rewrite Nat.sub_diag.
           unfold constant_loads_between. simpl. rewrite Z.add_0_r. reflexivity.
        -- rewrite (Hrows j c).
           2:{ unfold a1. rewrite list_lookup_insert_ne by congruence. assumption. }
           unfold a1 at 1.
           rewrite (utilized_constant_load_insert util _ i ci k k j Hci Hnode).
           destruct (Nat.leb_spec (S i) j), (Nat.leb_spec i j); try lia; [|reflexivity].
           replace (j - i)%nat with (S (j - S i)) by lia.
           rewrite constant_loads_between_S, Hyes, Hsame.
           simpl andb.
           destruct (utilized_constant_load util (_command_array self) j);
             [|reflexivity].
           cbv zeta. f_equal. f_equal; lia.
      * apply Hskip. unfold utilized_constant_load. rewrite Hu, Hci. assumption.
    + apply Hskip. unfold utilized_constant_load. rewrite Hu. reflexivity.
Qed.

Section WithBackend.
Context {X FX DFX : Type} {the_backend : Backend X FX DFX}.

(** The whole method, once the backend has returned a liveness vector of
    the length of the command array. *)
Lemma get_number_local_optimization_params_run (self : AGraph) (util : list bool) :
  backend_get_utilized_commands (_command_array self) = Returns util ->
  length util = length (_command_array self) ->
  exists a' : list command,
    get_number_local_optimization_params self
    = (Returns (Z.of_nat (rank util (_command_array self) (length (_command_array self)))),
       with_command_array a' self)
    /\ length a' = length (_command_array self)
    /\ forall (j : nat) (c : command),
         _command_array self !! j = Some c ->
         a' !! j
         = Some (if utilized_constant_load util (_command_array self) j
                 then Command 1 (Z.of_nat (rank util (_command_array self) j))
                                (Z.of_nat (rank util (_command_array self) j))
                 else c).
Proof.
  intros Hutil Hlen.
  destruct (count_and_bind_from_spec util (length (_command_array self)) 0 0%Z self)
    as (a' & Hrun & Hlen' & Hrows); [reflexivity|assumption|].
  exists a'. split; [|split; [assumption|]].
  - unfold get_number_local_optimization_params, get_utilized_commands, bind, gets.
    rewrite Hutil, Hrun. reflexivity.
  - intros j c Hj. rewrite (Hrows j c Hj). simpl. rewrite Nat.sub_0_r. reflexivity.
Qed.

(** C5: with a liveness vector returned for the command array,
    [get_number_local_optimization_params] returns the number of utilized
    constant-load instructions, rewrites each of them to [(1, k, k)] with [k]
    the number of utilized constant-loads met before it, and leaves every
    non-utilized row and every utilized row with another opcode as it was;
    afterwards every utilized constant-load carries its rank in both
    parameters. The constants and the fitness are not touched. *)
Theorem get_number_local_optimization_params_binds (self : AGraph) (util : list bool) :
  backend_get_utilized_commands (_command_array self) = Returns util ->
  length util = length (_command_array self) ->
  exists self' : AGraph,
    get_number_local_optimization_params self
    = (Returns (Z.of_nat (constant_loads_between
                            util (_command_array self) 0 (length (_command_array self)))),
       self')
    /\ length (_command_array self') = length (_command_array self)
    /\ _constants self' = _constants self
    /\ _fitness self' = _fitness self
    /\ fit_set self' = fit_set self
    /\ (forall (i : nat) (c : command),
          _command_array self !! i = Some c ->
          (util !! i = Some true -> node c = 1%Z ->
           _command_array self' !! i
           = Some (Command 1 (Z.of_nat (rank util (_command_array self) i))
                             (Z.of_nat (rank util (_command_array self) i))))
          /\ (util !! i = Some false -> _command_array self' !! i = Some c)
          /\ (node c <> 1%Z -> _command_array self' !! i = Some c))
    /\ (forall (i : nat) (c' : command),
          _command_array self' !! i = Some c' ->
          utilized_constant_load util (_command_array self') i = true ->
          param1 c' = Z.of_nat (rank util (_command_array self') i)
          /\ param2 c' = Z.of_nat (rank util (_command_array self') i)).
Proof.
  intros Hutil Hlen.
  destruct (get_number_local_optimization_params_run self util Hutil Hlen)
    as (a' & Hrun & Hlen' & Hrows).
  assert (Hkeep : forall j : nat,
             utilized_constant_load util a' j
             = utilized_constant_load util (_command_array self) j).
  { intros j. unfold utilized_constant_load at 1 2.
    destruct (util !! j) as [[|]|] eqn:Hu; try reflexivity.
    destruct (_command_array self !! j) as [c|] eqn:Hc.
    - rewrite (Hrows j c Hc). unfold utilized_constant_load. rewrite Hu, Hc.
      destruct (node c =? 1)%Z eqn:Hn; simpl; [reflexivity|assumption].
    - apply lookup_ge_None in Hc. rewrite lookup_ge_None_2 by lia. reflexivity. }
  exists (with_command_array a' self).
  split; [exact Hrun|]. split; [exact Hlen'|].
  split; [reflexivity|]. split; [reflexivity|]. split; [reflexivity|].
  split.
  - intros i c Hc. simpl. rewrite (Hrows i c Hc). unfold utilized_constant_load.
    rewrite Hc. split; [|split].
    + intros -> Hnode. apply Z.eqb_eq in Hnode. rewrite Hnode. reflexivity.
    + intros ->. reflexivity.
    + intros Hnode. apply Z.eqb_neq in Hnode. rewrite Hnode.
      destruct (util !! i) as [[|]|]; reflexivity.
  - intros i c' Hc' Hload. simpl in *.
    assert (Hi : (i < length (_command_array self))%nat).
    { rewrite <- Hlen'. eapply lookup_lt_Some; eassumption. }
    destruct (lookup_lt_is_Some_2 _ _ Hi) as [c Hc].
    rewrite (Hrows i c Hc) in Hc'. rewrite Hkeep in Hload. rewrite Hload in Hc'.
    injection Hc' as <-. unfold rank.
    rewrite (constant_loads_between_ext util a' (_command_array self) 0 i Hkeep).
    split; reflexivity.
Qed.

(** A second run over the result of a first one, under the same liveness
    vector, repeats it. *)
Lemma second_run_repeats_first
    (self self1 : AGraph) (util : list bool) (count : Z) :
  backend_get_utilized_commands (_command_array self) = Returns util ->
  length util = length (_command_array self) ->
  get_number_local_optimization_params self = (Returns count, self1) ->
  backend_get_utilized_commands (_command_array self1) = Returns util ->
  get_number_local_optimization_params self1 = (Returns count, self1).
Proof.
  intros Hutil Hlen Hfirst Hstable.
  destruct (get_number_local_optimization_params_run self util Hutil Hlen)
    as (a1 & Hrun1 & Hlen1 & Hrows1).
  rewrite Hrun1 in Hfirst. injection Hfirst as Hcount Hself1.
  assert (Ha1 : _command_array self1 = a1) by (rewrite <- Hself1; reflexivity).
  assert (Hkeep : forall j : nat,
             utilized_constant_load util a1 j
             = utilized_constant_load util (_command_array self) j).
  { intros j. unfold utilized_constant_load at 1 2.
    destruct (util !! j) as [[|]|] eqn:Hu; try reflexivity.
    destruct (_command_array self !! j) as [c|] eqn:Hc.
    - rewrite (Hrows1 j c Hc). unfold utilized_constant_load. rewrite Hu, Hc.
      destruct (node c =? 1)%Z eqn:Hn; simpl; [reflexivity|assumption].
    - apply lookup_ge_None in Hc. rewrite lookup_ge_None_2 by lia. reflexivity. }
  destruct (get_number_local_optimization_params_run self1 util Hstable)
    as (a2 & Hrun2 & Hlen2 & Hrows2); [rewrite Ha1; lia|].
  rewrite Hrun2, Ha1. f_equal.
  - f_equal. rewrite <- Hcount, Hlen1. unfold rank. f_equal.
    apply constant_loads_between_ext, Hkeep.
  - rewrite Ha1 in Hlen2, Hrows2.
    assert (Hsame : a2 = a1).
    { apply list_eq. intros j.
      destruct (a1 !! j) as [c1|] eqn:Hc1.
      - rewrite (Hrows2 j c1 Hc1).
        destruct (utilized_constant_load util a1 j) eqn:Hload; [|reflexivity].
        assert (Hj : (j < length (_command_array self))%nat).
        { rewrite <- Hlen1. eapply lookup_lt_Some; eassumption. }
        destruct (lookup_lt_is_Some_2 _ _ Hj) as [c Hc].
        rewrite (Hrows1 j c Hc) in Hc1. rewrite <- Hkeep, Hload in Hc1.
        injection Hc1 as <-. unfold rank.
        rewrite (constant_loads_between_ext util a1 (_command_array self) 0 j Hkeep).
        reflexivity.
      - apply lookup_ge_None in Hc1. apply lookup_ge_None. lia. }
    rewrite Hsame, <- Hself1. reflexivity.
Qed.

(** C6: [get_number_local_optimization_params] is idempotent: a first call
    returns a count and leaves a program, and when the backend returns the same
    liveness vector for that program, a second call returns the same count and
    leaves the same program, command array included. *)
Theorem get_number_local_optimization_params_idempotent
    (self : AGraph) (util : list bool) :
  backend_get_utilized_commands (_command_array self) = Returns util ->
  length util = length (_command_array self) ->
  exists (count : Z) (self1 : AGraph),
    get_number_local_optimization_params self = (Returns count, self1)
    /\ (backend_get_utilized_commands (_command_array self1) = Returns util ->
        get_number_local_optimization_params self1 = (Returns count, self1)
        /\ _command_array (snd (get_number_local_optimization_params self1))
           = _command_array self1).
Proof.
  intros Hutil Hlen.
  destruct (get_number_local_optimization_params_run self util Hutil Hlen)
    as (a1 & Hrun1 & _).
  eexists _, _. split; [exact Hrun1|].
  intros Hstable.
  pose proof (second_run_repeats_first _ _ _ _ Hutil Hlen Hrun1 Hstable) as Hsecond.
  split; [exact Hsecond|]. rewrite Hsecond. reflexivity.
Qed.

(** The loop of [needs_local_optimization], run from row [i]. *)
Lemma needs_local_optimization_from_spec (util : list bool) (self : AGraph) :
  length util = length (_command_array self) ->
  forall (count i : nat),
    (i + count)%nat = length (_command_array self) ->
    exists b : bool,
      needs_local_optimization_from util i count self = (Returns b, self)
      /\ (b = true <->
          exists (j : nat) (c : command),
            (i <= j)%nat
            /\ util !! j = Some true
            /\ _command_array self !! j = Some c
            /\ node c = 1%Z
            /\ (param1 c = -1 \/ param1 c >= Z.of_nat (length (_constants self)))%Z).
Proof.
  intros Hutil. induction count as [|count IH]; intros i Hlen.
  - exists false. split; [reflexivity|]. split; [discriminate|].
    intros (j & c & Hij & _ & Hc & _). apply lookup_lt_Some in Hc. lia.
  - destruct (lookup_lt_is_Some_2 util i) as [u Hu]; [lia|].
    destruct (lookup_lt_is_Some_2 (_command_array self) i) as [ci Hci]; [lia|].
    destruct (IH (S i)) as (b & Hrun & Hb); [lia|].
    cbn [needs_local_optimization_from]. unfold bind at 1. unfold lift, np_getitem.
    rewrite Hu.
    assert (Hlater :
      ~ (u = true /\ node ci = 1%Z
         /\ (param1 ci = -1 \/ param1 ci >= Z.of_nat (length (_constants self)))%Z) ->
      b = true <->
      exists (j : nat) (c : command),
        (i <= j)%nat
        /\ util !! j = Some true
        /\ _command_array self !! j = Some c
        /\ node c = 1%Z
        /\ (param1 c = -1 \/ param1 c >= Z.of_nat (length (_constants self)))%Z).
    { intros Hnot. rewrite Hb. split.
      - intros (j & c & Hij & Hrest). exists j, c. split; [lia|exact Hrest].
      - intros (j & c & Hij & Huj & Hc & Hnode & Hp).
        destruct (decide (j = i)) as [->|Hne].
        + exfalso. apply Hnot. rewrite Hu in Huj. rewrite Hci in Hc.
          injection Huj as ->. injection Hc as ->. auto.
        + exists j, c. split; [lia|auto]. }
    destruct u.
    + unfold bind at 1. unfold row at 1. unfold np_getitem at 1. rewrite Hci.
      assert (Htested :
        (if (node ci =? 1)%Z
         then bind (gets id)
                (fun self0 : AGraph =>
                   if unbound self0 ci then ret true
                   else needs_local_optimization_from util (S i) count)
         else needs_local_optimization_from util (S i) count) self
        = (if ((node ci =? 1)%Z && unbound self ci)%bool then ret true
           else needs_local_optimization_from util (S i) count) self).
      { destruct (node ci =? 1)%Z; reflexivity. }
      rewrite Htested. clear Htested.
      destruct ((node ci =? 1)%Z && unbound self ci)%bool eqn:Htest.
      * exists true. split; [reflexivity|]. split; [|reflexivity]. intros _.
        apply andb_true_iff in Htest. destruct Htest as [Hnode Hunbound].
        exists i, ci. split; [lia|]. split; [assumption|]. split; [assumption|].
        split; [apply Z.eqb_eq, Hnode|].
        unfold unbound in Hunbound. apply orb_true_iff in Hunbound.
        destruct Hunbound as [Hp|Hp]; [left; apply Z.eqb_eq, Hp|right].
        apply Z.geb_le in Hp. lia.
      * exists b. split; [exact Hrun|]. apply Hlater.
        intros (_ & Hnode & Hp). apply andb_false_iff in Htest.
        destruct Htest as [Htest|Htest].
        -- apply Z.eqb_neq in Htest. contradiction.
        -- unfold unbound in Htest. apply orb_false_iff in Htest.
           destruct Htest as [H1 H2]. apply Z.eqb_neq in H1.
           destruct Hp as [Hp|Hp]; [contradiction|].
           assert ((param1 ci >=? Z.of_nat (length (_constants self)))%Z = true)
             by (apply Z.geb_le; lia).
           congruence.
    + exists b. split; [exact Hrun|]. apply Hlater. intros (Hu' & _). discriminate.
Qed.

(** C7: [needs_local_optimization] returns true exactly when some row is
    marked utilized by the liveness vector, loads a constant (opcode 1) and
    has a first parameter that is -1 or at least the number of constants; it
    returns false when there is no such row. The program is not modified. *)
Theorem needs_local_optimization_iff_unbound_utilized_constant
    (self : AGraph) (util : list bool) :
  backend_get_utilized_commands (_command_array self) = Returns util ->
  length util = length (_command_array self) ->
  exists b : bool,
    needs_local_optimization self = (Returns b, self)
    /\ (b = true <->
        exists (i : nat) (c : command),
          util !! i = Some true
          /\ _command_array self !! i = Some c
          /\ node c = 1%Z
          /\ (param1 c = -1 \/ param1 c >= Z.of_nat (length (_constants self)))%Z)
    /\ ((forall (i : nat) (c : command),
           util !! i = Some true -> _command_array self !! i = Some c ->
           node c = 1%Z ->
           (param1 c <> -1 /\ param1 c < Z.of_nat (length (_constants self)))%Z) ->
        b = false).
Proof.
  intros Hutil Hlen.
  destruct (needs_local_optimization_from_spec util self Hlen
              (length (_command_array self)) 0 eq_refl) as (b & Hrun & Hb).
  exists b. split; [|split].
  - unfold needs_local_optimization, get_utilized_commands, bind, gets.
    rewrite Hutil. exact Hrun.
  - rewrite Hb. split.
    + intros (j & c & _ & Hrest). exists j, c. exact Hrest.
    + intros (j & c & Hrest). exists j, c. split; [lia|exact Hrest].
  - intros Hnone. destruct b; [|reflexivity]. exfalso.
    destruct (proj1 Hb eq_refl) as (j & c & _ & Huj & Hc & Hnode & Hp).
    destruct (Hnone j c Huj Hc Hnode). lia.
Qed.

(** *** Rendering and evaluation *)

Lemma stack_template_formats (opcode : Z) :
  (2 <= opcode <= 12)%Z ->
  exists template : string,
    dict_getitem STACK_PRINT_MAP opcode = Returns template
    /\ forall a b : string, exists s : string, format template [a; b] = Returns s.
Proof.
  intros Hrange.
  assert (Hcases : (opcode = 2 \/ opcode = 3 \/ opcode = 4 \/ opcode = 5 \/ opcode = 6
                    \/ opcode = 7 \/ opcode = 8 \/ opcode = 9 \/ opcode = 10
                    \/ opcode = 11 \/ opcode = 12)%Z) by lia.
  repeat destruct Hcases as [->|Hcases]; try subst opcode;
    (eexists; split; [reflexivity|]; intros a b; eexists; reflexivity).
Qed.

Variable str_of_float : float -> string.

Lemma _get_stack_element_string_returns (self : AGraph) (i : nat) (c : command) :
  _command_array self !! i = Some c ->
  well_formed_command c = true ->
  exists s : string,
    _get_stack_element_string str_of_float i self = (Returns s, self).
Proof.
  intros Hc Hwf. unfold well_formed_command in Hwf.
  apply andb_true_iff in Hwf. destruct Hwf as [Hwf Hindex].
  apply andb_true_iff in Hwf. destruct Hwf as [Hlow Hhigh].
  apply Z.leb_le in Hlow, Hhigh.
  unfold _get_stack_element_string, bind at 1. unfold row, np_getitem. rewrite Hc.
  unfold bind at 1. unfold gets at 1, id.
  destruct (Z.eqb_spec (node c) 0) as [Hzero|Hzero].
  { eexists. reflexivity. }
  destruct (Z.eqb_spec (node c) 1) as [Hone|Hone].
  - destruct (unbound self c) eqn:Hunbound.
    { eexists. reflexivity. }
    unfold unbound in Hunbound. apply orb_false_iff in Hunbound.
    destruct Hunbound as [Hminus Hbound].
    apply Z.eqb_neq in Hminus.
    simpl in Hindex. apply Z.leb_le in Hindex.
    assert (Hlt : (param1 c < Z.of_nat (length (_constants self)))%Z).
    { destruct (Z.geb_spec (param1 c) (Z.of_nat (length (_constants self))));
        [discriminate|lia]. }
    unfold bind, lift, py_getitem.
    destruct (Z.ltb_spec (param1 c) 0); [lia|].
    destruct (Z.leb_spec 0 (param1 c)); [|lia].
    destruct (Z.ltb_spec (param1 c) (Z.of_nat (length (_constants self)))); [|lia].
    simpl.
    destruct (lookup_lt_is_Some_2 (_constants self) (Z.to_nat (param1 c)))
      as [value Hvalue]; [lia|].
    rewrite Hvalue. eexists. reflexivity.
  - destruct (stack_template_formats (node c)) as (template & Htemplate & Hformat);
      [lia|].
    destruct (Hformat (str_of_int (param1 c)) (str_of_int (param2 c))) as [s Hs].
    unfold bind, lift. rewrite Htemplate, Hs. eexists. reflexivity.
Qed.

Lemma _get_stack_string_from_returns (self : AGraph) :
  well_formed self ->
  forall (rows_to_show : list bool) (i : nat) (tmp_str : string),
    (i + length rows_to_show <= length (_command_array self))%nat ->
    exists s : string,
      _get_stack_string_from str_of_float rows_to_show i tmp_str self = (Returns s, self).
Proof.
  intros Hwf. induction rows_to_show as [|show rows IH]; intros i tmp_str Hlen.
  - exists tmp_str. reflexivity.
  - simpl in Hlen. cbn [_get_stack_string_from]. destruct show.
    + destruct (lookup_lt_is_Some_2 (_command_array self) i) as [c Hc]; [lia|].
      destruct (_get_stack_element_string_returns self i c Hc) as [s Hs].
      { unfold well_formed in Hwf. rewrite Forall_lookup in Hwf.
        exact (Hwf i c Hc). }
      rewrite (bind_run _ _ _ _ _ Hs). apply IH. lia.
    + apply IH. lia.
Qed.

(** The stack form of a program of the data model renders, once the backend
    has returned a liveness vector of the length of the command array. *)
Lemma str_returns (self : AGraph) (util : list bool) :
  well_formed self ->
  backend_get_utilized_commands (_command_array self) = Returns util ->
  length util = length (_command_array self) ->
  exists rendered : string, __str__ str_of_float self = (Returns rendered, self).
Proof.
  intros Hwf Hutil Hlen. unfold __str__, _get_stack_string.
  destruct (_get_stack_string_from_returns self Hwf
              (replicate (length (_command_array self)) true) 0 "") as [full Hfull].
  { rewrite length_replicate. lia. }
  destruct (_get_stack_string_from_returns self Hwf util 0 "") as [small Hsmall];
    [lia|].
  unfold bind, gets, get_utilized_commands. rewrite Hfull, Hutil, Hsmall.
  eexists. reflexivity.
Qed.

(** The handler shared by the three evaluation methods. *)
Lemma _raise_runtime_error_run {A : Type} (self : AGraph) (ex : exn)
    (rendered : string) (records : list string) :
  fst (__str__ str_of_float self) = Returns rendered ->
  @_raise_runtime_error X FX DFX the_backend str_of_float A self ex records
  = (Raises (Exn RuntimeError ""), records ++ [rendered] ++ [exn_str ex]).
Proof.
  intros Hstr. unfold _raise_runtime_error, bind, lift, LOGGER_error, modify, raise.
  rewrite Hstr. simpl. rewrite <- app_assoc. reflexivity.
Qed.

(** C8, as amended: when the backend succeeds, each of the three evaluation
    methods returns the backend's result unchanged and logs nothing. When the
    backend raises an exception [ex] and the stack form of the program renders,
    each method logs its own message, the rendered stack form and the text of
    [ex], and raises a [RuntimeError] that has no text of its own and has [ex]
    as its context. The stack form renders for every program of the data model
    for which the backend returns a liveness vector of the length of the
    command array. *)
Theorem evaluation_failures_surface_as_one_runtime_error
    (self : AGraph) (x : X) (records : list string) :
  (forall v : FX,
      backend_simplify_and_evaluate (_command_array self) x (_constants self)
      = Returns v ->
      evaluate_equation_at str_of_float self x records = (Returns v, records))
  /\ (forall v : FX * DFX,
        backend_simplify_and_evaluate_with_derivative
          (_command_array self) x (_constants self) true = Returns v ->
        evaluate_equation_with_x_gradient_at str_of_float self x records
        = (Returns v, records))
  /\ (forall v : FX * DFX,
        backend_simplify_and_evaluate_with_derivative
          (_command_array self) x (_constants self) false = Returns v ->
        evaluate_equation_with_local_opt_gradient_at str_of_float self x records
        = (Returns v, records))
  /\ (forall rendered : string,
        fst (__str__ str_of_float self) = Returns rendered ->
        (forall ex : exn,
            backend_simplify_and_evaluate (_command_array self) x (_constants self)
            = Raises ex ->
            evaluate_equation_at str_of_float self x records
            = (Raises (with_context ex (Exn RuntimeError "")),
               records ++ ["Error in stack evaluation"; rendered; exn_str ex]))
        /\ (forall ex : exn,
              backend_simplify_and_evaluate_with_derivative
                (_command_array self) x (_constants self) true = Raises ex ->
              evaluate_equation_with_x_gradient_at str_of_float self x records
              = (Raises (with_context ex (Exn RuntimeError "")),
                 records ++ ["Error in stack evaluation/deriv"; rendered; exn_str ex]))
        /\ (forall ex : exn,
              backend_simplify_and_evaluate_with_derivative
                (_command_array self) x (_constants self) false = Raises ex ->
              evaluate_equation_with_local_opt_gradient_at str_of_float self x records
              = (Raises (with_context ex (Exn RuntimeError "")),
                 records
                 ++ ["Error in stack evaluation/const-deriv"; rendered; exn_str ex])))
  /\ (well_formed self ->
      forall util : list bool,
        backend_get_utilized_commands (_command_array self) = Returns util ->
        length util = length (_command_array self) ->
        exists rendered : string,
          fst (__str__ str_of_float self) = Returns rendered).
Proof.
  split; [|split; [|split; [|split]]].
  - intros v Hv. unfold evaluate_equation_at, try_except, lift. rewrite Hv. reflexivity.
  - intros v Hv. unfold evaluate_equation_with_x_gradient_at, try_except, lift.
    rewrite Hv. reflexivity.
  - intros v Hv. unfold evaluate_equation_with_local_opt_gradient_at, try_except, lift.
    rewrite Hv. reflexivity.
  - intros rendered Hstr.
    split; [|split]; intros ex Hex.
    + unfold evaluate_equation_at, try_except, lift. rewrite Hex.
      unfold bind, LOGGER_error, modify.
      rewrite (_raise_runtime_error_run self ex rendered _ Hstr).
      rewrite <- app_assoc. reflexivity.
    + unfold evaluate_equation_with_x_gradient_at, try_except, lift. rewrite Hex.
      unfold bind, LOGGER_error, modify.
      rewrite (_raise_runtime_error_run self ex rendered _ Hstr).
      rewrite <- app_assoc. reflexivity.
    + unfold evaluate_equation_with_local_opt_gradient_at, try_except, lift.
      rewrite Hex. unfold bind, LOGGER_error, modify.
      rewrite (_raise_runtime_error_run self ex rendered _ Hstr).
      rewrite <- app_assoc. reflexivity.
  - intros Hwf util Hutil Hlen.
    destruct (str_returns self util Hwf Hutil Hlen) as [rendered Hstr].
    exists rendered. rewrite Hstr. reflexivity.
Qed.

End WithBackend.

Lemma row_differences_count (ra rb : command) :
  row_differences ra rb
  = Z.of_nat (length (filter (fun xy : Z * Z => fst xy <> snd xy)
                             (zip [node ra; param1 ra; param2 ra]
                                  [node rb; param1 rb; param2 rb]))).
Proof.
  unfold row_differences. simpl zip.
  repeat match goal with
         | |- context [filter _ ((?x, ?y) :: _)] =>
             destruct (decide (x = y)) as [?|?];
             [ rewrite (filter_cons_False _ (x, y)) by (simpl; tauto);
               rewrite (proj2 (Z.eqb_eq x y)) by assumption
             | rewrite (filter_cons_True _ (x, y)) by (simpl; assumption);
               rewrite (proj2 (Z.eqb_neq x y)) by assumption ]
         end; reflexivity.
Qed.

Lemma sum_differences_count (a b : list command) :
  length a = length b ->
  sum_differences a b = Z.of_nat (differing_positions a b).
Proof.
  revert b. induction a as [|ra a IH]; intros [|rb b] Hlen; try discriminate.
  - reflexivity.
  - injection Hlen as Hlen. cbn [sum_differences].
    rewrite (IH b Hlen), row_differences_count.
    unfold differing_positions, entries. cbn [map concat].
    change ([node ra; param1 ra; param2 ra] ++ ?l)
      with (node ra :: param1 ra :: param2 ra :: l).
    change ([node rb; param1 rb; param2 rb] ++ ?l)
      with (node rb :: param1 rb :: param2 rb :: l).
    cbn [zip zip_with].
    change ((node ra, node rb) :: (param1 ra, param1 rb) :: (param2 ra, param2 rb) :: ?l)
      with ([(node ra, node rb); (param1 ra, param1 rb); (param2 ra, param2 rb)] ++ l).
    rewrite (filter_app _ _ (zip _ _)), length_app, ?app_nil_r. lia.
Qed.

Lemma row_differences_same (r : command) : row_differences r r = 0%Z.
Proof. unfold row_differences. rewrite !Z.eqb_refl. reflexivity. Qed.

Lemma sum_differences_same (a : list command) : sum_differences a a = 0%Z.
Proof.
  induction a as [|r a IH]; [reflexivity|].
  cbn [sum_differences]. rewrite row_differences_same, IH. reflexivity.
Qed.

Lemma sum_differences_one_opcode (a b : list command) (i : nat) :
  differ_in_one_opcode a b i -> sum_differences a b = 1%Z.
Proof.
  revert b i. induction a as [|ra a IH]; intros b i (Hlen & Hrow & Hrest).
  - destruct Hrow as (r & _ & Hr & _). rewrite lookup_nil in Hr. discriminate.
  - destruct b as [|rb b]; [discriminate|]. injection Hlen as Hlen.
    cbn [sum_differences]. destruct i as [|i].
    + destruct Hrow as (r & r' & Hr & Hr' & Hnode & Hp1 & Hp2).
      injection Hr as <-. injection Hr' as <-.
      assert (Htail : a = b).
      { apply list_eq. intros j. apply (Hrest (S j)). discriminate. }
      rewrite Htail, sum_differences_same. unfold row_differences.
      rewrite Hp1, Hp2, !Z.eqb_refl. apply Z.eqb_neq in Hnode. rewrite Hnode.
      reflexivity.
    + assert (Hhead : ra = rb).
      { specialize (Hrest 0%nat). simpl in Hrest.
        assert (Some ra = Some rb) as Heq by (apply Hrest; discriminate).
        injection Heq as ->. reflexivity. }
      rewrite Hhead, row_differences_same, (IH b i); [reflexivity|].
      split; [assumption|]. split; [exact Hrow|].
      intros j Hj. apply (Hrest (S j)). congruence.
Qed.

(** C9: for command arrays of equal shape, [distance] returns the number of
    element positions at which the two Nx3 arrays differ; hence it is 0
    between a program and an identical copy, and at least 1 between programs
    that differ in exactly one opcode. There is no guard on the shapes: for
    arrays of different heights the result is whatever numpy makes of the
    comparison. *)
Theorem distance_counts_differing_positions
    (np_sum_not_equal_mismatched : list command -> list command -> outcome Z)
    (p q : AGraph) :
  (length (command_array p) = length (command_array q) ->
   distance np_sum_not_equal_mismatched p q
   = Returns (Z.of_nat (differing_positions (command_array p) (command_array q))))
  /\ (command_array p = command_array q ->
      distance np_sum_not_equal_mismatched p q = Returns 0%Z)
  /\ (forall i : nat,
        differ_in_one_opcode (command_array p) (command_array q) i ->
        exists d : Z,
          distance np_sum_not_equal_mismatched p q = Returns d /\ (1 <= d)%Z)
  /\ (length (command_array p) <> length (command_array q) ->
      distance np_sum_not_equal_mismatched p q
      = np_sum_not_equal_mismatched (command_array p) (command_array q)).
Proof.
  unfold distance. repeat split.
  - intros Hlen. rewrite Hlen, Nat.eqb_refl, sum_differences_count by assumption.
    reflexivity.
  - intros Hsame. rewrite Hsame, Nat.eqb_refl, sum_differences_same. reflexivity.
  - intros i Hdiff. exists 1%Z. split; [|lia].
    rewrite (proj1 Hdiff), Nat.eqb_refl.
    rewrite (sum_differences_one_opcode _ _ i Hdiff). reflexivity.
  - intros Hlen. apply Nat.eqb_neq in Hlen. rewrite Hlen. reflexivity.
Qed.

(** C10: [set_local_optimization_params] replaces the constants and nothing
    else: the command array, the stored fitness and the fitness-set flag keep
    their values, whereas assigning the command array and
    [notify_command_array_modification] both unset the fitness. *)
Theorem set_local_optimization_params_keeps_fitness
    (self : AGraph) (params : list float) (a : list command) :
  let self' := set_local_optimization_params params self in
  _constants self' = params
  /\ _command_array self' = _command_array self
  /\ _fitness self' = _fitness self
  /\ fit_set self' = fit_set self
  /\ (_fitness (set_command_array a self) = None
      /\ fit_set (set_command_array a self) = false)
  /\ (_fitness (notify_command_array_modification self) = None
      /\ fit_set (notify_command_array_modification self) = false).
Proof. repeat split. Qed.

(** *** The theorems at work on concrete programs *)

Import Reference.

Lemma get_number_local_optimization_params_binds_witness :
  exists self' : AGraph,
    get_number_local_optimization_params Reference.sum_of_constants
    = (Returns 2%Z, self')
    /\ _command_array self' !! 2%nat = Some (Command 1 1 1)
    /\ _command_array self' !! 0%nat = Some (Command 0 0 0).
Proof.
  destruct (get_number_local_optimization_params_binds (the_backend := Reference.backend)
              Reference.sum_of_constants [false; true; true; true]
              ltac:(vm_compute; reflexivity) ltac:(reflexivity))
    as (self' & Hrun & _ & _ & _ & _ & Hrows & _).
  exists self'. split; [exact Hrun|]. split.
  - destruct (Hrows 2%nat (Command 1 (-1) (-1)) ltac:(reflexivity))
      as (Hbound & _ & _).
    rewrite Hbound by reflexivity. reflexivity.
  - destruct (Hrows 0%nat (Command 0 0 0) ltac:(reflexivity))
      as (_ & Hdead & _).
    apply Hdead. reflexivity.
Defined.

Lemma get_number_local_optimization_params_idempotent_witness :
  exists (count : Z) (self1 : AGraph),
    get_number_local_optimization_params Reference.sum_of_constants
    = (Returns count, self1)
    /\ get_number_local_optimization_params self1 = (Returns count, self1).
Proof.
  destruct (get_number_local_optimization_params_idempotent (the_backend := Reference.backend)
              Reference.sum_of_constants [false; true; true; true]
              ltac:(vm_compute; reflexivity) ltac:(reflexivity))
    as (count & self1 & Hfirst & Hsecond).
  exists count, self1. split; [exact Hfirst|].
  apply Hsecond.
  assert (Hself1 : self1 = snd (get_number_local_optimization_params
                                  Reference.sum_of_constants))
    by (rewrite Hfirst; reflexivity).
  rewrite Hself1. reflexivity.
Defined.

Lemma needs_local_optimization_iff_unbound_utilized_constant_witness :
  needs_local_optimization Reference.sum_of_constants
  = (Returns true, Reference.sum_of_constants).
Proof.
  destruct (needs_local_optimization_iff_unbound_utilized_constant (the_backend := Reference.backend)
              Reference.sum_of_constants [false; true; true; true]
              ltac:(vm_compute; reflexivity) ltac:(reflexivity))
    as (b & Hrun & Hiff & _).
  rewrite Hrun. f_equal. f_equal. apply Hiff.
  exists 1%nat, (Command 1 (-1) (-1)).
  repeat split. left. reflexivity.
Defined.

Lemma evaluation_failures_surface_as_one_runtime_error_witness :
  exists rendered : string,
    fst (__str__ Reference.str_of_float Reference.sum_of_constants) = Returns rendered
    /\ evaluate_equation_at Reference.str_of_float Reference.sum_of_constants
         [[1%float]] []
       = (Raises (Raised RuntimeError ""
                    (Some (Exn IndexError "list index out of range"))),
          ["Error in stack evaluation"; rendered; "list index out of range"]).
Proof.
  destruct (evaluation_failures_surface_as_one_runtime_error
              (the_backend := Reference.backend)
              Reference.str_of_float Reference.sum_of_constants [[1%float]] [])
    as (_ & _ & _ & Hfailure & Hrenders).
  destruct (Hrenders ltac:(repeat constructor) [false; true; true; true]
                     ltac:(vm_compute; reflexivity) ltac:(reflexivity))
    as (rendered & Hstr).
  exists rendered. split; [exact Hstr|].
  destruct (Hfailure rendered Hstr) as (Hforward & _).
  apply (Hforward (Exn IndexError "list index out of range")). reflexivity.
Defined.

(** C8, as worded, fails in two ways. For the program without rows, for
    which the reference backend raises, the rendering of the stack form asks
    the backend for the liveness vector and raises in its turn: the caller of
    [evaluate_equation_at] receives that [IndexError], not a [RuntimeError],
    and the log holds the message of the method alone. And where the stack
    form renders, the [RuntimeError] raised has the backend's exception, with
    its class and its text, as its context. *)
Lemma evaluation_failure_is_not_always_a_bare_runtime_error :
  (backend_simplify_and_evaluate (_command_array Samples.empty) [[1%float]]
     (_constants Samples.empty)
   = Raises (Exn IndexError "list assignment index out of range")
   /\ evaluate_equation_at Reference.str_of_float Samples.empty [[1%float]] []
      = (Raises (Raised IndexError "list assignment index out of range"
                   (Some (Exn IndexError "list assignment index out of range"))),
         ["Error in stack evaluation"]))
  /\ (backend_simplify_and_evaluate (_command_array Reference.sum_of_constants)
        [[1%float]] (_constants Reference.sum_of_constants)
      = Raises (Exn IndexError "list index out of range")
      /\ exn_context
           (match fst (evaluate_equation_at Reference.str_of_float
                         Reference.sum_of_constants [[1%float]] []) with
            | Raises e => e
            | Returns _ => Exn RuntimeError ""
            end)
         = Some (Exn IndexError "list index out of range")).
Proof.
  vm_compute. repeat split.
Qed.

Lemma distance_counts_differing_positions_witness :
  distance Reference.np_sum_not_equal_mismatched
    Reference.sum_of_constants Reference.sum_of_constants = Returns 0%Z
  /\ exists d : Z,
       distance Reference.np_sum_not_equal_mismatched
         Reference.sum_of_constants Reference.difference_of_constants = Returns d
       /\ (1 <= d)%Z.
Proof.
  split.
  - apply (distance_counts_differing_positions Reference.np_sum_not_equal_mismatched
             Reference.sum_of_constants Reference.sum_of_constants).
    reflexivity.
  - apply (distance_counts_differing_positions Reference.np_sum_not_equal_mismatched
             Reference.sum_of_constants Reference.difference_of_constants) with 3%nat.
    split; [reflexivity|]. split.
    + exists (Command 2 1 2), (Command 3 1 2). repeat split. discriminate.
    + intros [|[|[|[|j]]]] Hj; try reflexivity. congruence.
Defined.

End AGraphFacts.


(* ===================================================================== *)
(** ** Properties of VarOr *)
(* ===================================================================== *)

Module FloatOrder.

(** Comparison of binary64 numbers is antisymmetric, whenever it is defined
    (no operand is a NaN). *)
Lemma SFcompare_antisym (a b : spec_float) (c : comparison) :
  SFcompare a b = Some c -> SFcompare b a = Some (CompOpp c).
Proof.
  destruct a as [sa|sa| |sa ma ea], b as [sb|sb| |sb mb eb]; simpl;
    try discriminate;
    try (destruct sa); try (destruct sb); simpl;
    intros Hc; inversion Hc; subst; clear Hc; try reflexivity;
    rewrite (Z.compare_antisym ea eb); destruct (ea ?= eb)%Z; simpl;
    try reflexivity;
    rewrite (Pos.compare_cont_antisym ma mb Eq); simpl;
    rewrite ?CompOpp_involutive; reflexivity.
Qed.

Lemma ltb_leb_false (x y : float) :
  (x <? y)%float = true -> (y <=? x)%float = false.
Proof.
  rewrite ltb_spec, leb_spec. unfold SFltb, SFleb.
  destruct (SFcompare (Prim2SF x) (Prim2SF y)) as [c|] eqn:E; try discriminate.
  apply SFcompare_antisym in E. rewrite E. destruct c; simpl; congruence.
Qed.

Lemma leb_ltb_false (x y : float) :
  (x <=? y)%float = true -> (y <? x)%float = false.
Proof.
  intros Hle. destruct (y <? x)%float eqn:Hlt; [|reflexivity].
  apply ltb_leb_false in Hlt. congruence.
Qed.

End FloatOrder.

Module VarOrFacts.
Import VarOr VarOrRest FloatOrder Steps.

(** Take a returning sequence of steps apart, step by step. *)
Ltac returning H :=
  let a := fresh "a" in
  let w := fresh "w" in
  let Hstep := fresh "Hstep" in
  apply bind_returns in H; destruct H as (a & w & Hstep & H).

Section WithCollaborators.
Context {C : Type} `{Chromosome C} {rng : Type} `{NumpyRandom rng}.

(** The validation of [__init__], class by class. *)
Lemma init_cases (crossover : C -> C -> rng -> outcome (C * C) * rng)
    (mutation : C -> rng -> outcome C * rng) (pc pm : float) :
  __init__ crossover mutation pc pm
  = if negb (in_unit_interval pc) then Raises validation_error
    else if negb (in_unit_interval pm) then Raises validation_error
    else if (1 <? pc + pm)%float
    then Raises (Exn ValueError
           "The sum of crossover and mutation probabilities must be less than or equal to 1.0")
    else Returns {| _crossover := crossover;
                    _mutation := mutation;
                    _crossover_probability := pc;
                    _mutation_probability := pm;
                    _replication_probability := (1 - pc - pm)%float |}.
Proof. reflexivity. Qed.

(** C2: constructing a [VarOr] first validates that the crossover and the
    mutation probability each lie in [0,1] (the construction fails on a
    probability outside, whatever the sum); with both in range it fails
    exactly when [pc + pm > 1], and it succeeds, with the probabilities
    stored, whenever [pc + pm <= 1]. *)
Theorem init_fails_exactly_on_excess_sum
    (crossover : C -> C -> rng -> outcome (C * C) * rng)
    (mutation : C -> rng -> outcome C * rng) (pc pm : float) :
  (in_unit_interval pc = false \/ in_unit_interval pm = false ->
   __init__ crossover mutation pc pm = Raises validation_error)
  /\ (in_unit_interval pc = true -> in_unit_interval pm = true ->
      (returned (__init__ crossover mutation pc pm) = false
       <-> (1 <? pc + pm)%float = true)
      /\ ((pc + pm <=? 1)%float = true ->
          __init__ crossover mutation pc pm
          = Returns {| _crossover := crossover;
                       _mutation := mutation;
                       _crossover_probability := pc;
                       _mutation_probability := pm;
                       _replication_probability := (1 - pc - pm)%float |})).
Proof.
  rewrite init_cases. split.
  - intros [-> | Hpm]; [reflexivity|].
    rewrite Hpm. destruct (in_unit_interval pc); reflexivity.
  - intros -> ->. simpl. split.
    + destruct (1 <? pc + pm)%float; simpl; split; congruence.
    + intros Hle. rewrite (leb_ltb_false _ _ Hle). reflexivity.
Qed.

(** *** What each step of a slot does to the world *)

Lemma _get_random_parent_returns (population : list C) (w w' : world C rng) (c : C) :
  _get_random_parent population w = (Returns c, w') ->
  exists g : rng, w' = with_random_state g w.
Proof.
  unfold _get_random_parent. intros Hrun.
  returning Hrun. returning Hrun.
  unfold np_random_randint in Hstep.
  destruct (Z.of_nat (length population) <=? 0)%Z; [discriminate|].
  destruct (randint_draw _ _) as [k g]. injection Hstep as -> <-.
  unfold lift in Hstep0. injection Hstep0 as _ <-.
  unfold ret in Hrun. injection Hrun as _ <-.
  exists g. reflexivity.
Qed.

Lemma _get_random_parent_total (population : list C) (w : world C rng) :
  population <> [] ->
  exists (c : C) (g : rng),
    _get_random_parent population w = (Returns c, with_random_state g w).
Proof.
  intros Hne. unfold _get_random_parent, bind, np_random_randint.
  assert (Hpos : (0 < Z.of_nat (length population))%Z).
  { destruct population; [congruence|]. simpl length. lia. }
  destruct (Z.leb_spec (Z.of_nat (length population)) 0); [lia|].
  pose proof (randint_draw_range _ (random_state w) Hpos) as Hrange.
  destruct (randint_draw _ _) as [k g]. simpl in Hrange.
  unfold lift, py_getitem.
  destruct (Z.ltb_spec k 0); [lia|].
  destruct (Z.leb_spec 0 k); [|lia].
  destruct (Z.ltb_spec k (Z.of_nat (length population))); [|lia].
  simpl.
  destruct (lookup_lt_is_Some_2 population (Z.to_nat k)) as [parent Hparent]; [lia|].
  rewrite Hparent. exists (copy parent), g. reflexivity.
Qed.

Lemma _do_mutation_returns (self : VarOr C rng) (population : list C) (i : nat)
    (w w' : world C rng) :
  _do_mutation self population i w = (Returns tt, w') ->
  exists child : C,
    offspring w' = offspring w ++ [set_fit_set false child]
    /\ mutation_offspring w' = <[i := true]> (mutation_offspring w)
    /\ (i < length (mutation_offspring w))%nat
    /\ crossover_offspring w' = crossover_offspring w
    /\ history w' = history w.
Proof.
  unfold _do_mutation. intros Hrun.
  returning Hrun. apply _get_random_parent_returns in Hstep. destruct Hstep as [g ->].
  returning Hrun. unfold call_mutation in Hstep.
  destruct (_mutation self a _) as [mutant g']. injection Hstep as -> <-.
  returning Hrun. unfold _append_new_individual_to_offspring, modify in Hstep.
  injection Hstep as _ <-.
  returning Hrun. unfold gets in Hstep. injection Hstep as <- <-.
  returning Hrun. unfold lift, np_setitem in Hstep. simpl in Hstep.
  destruct (Nat.ltb_spec i (length (mutation_offspring w))); [|discriminate].
  injection Hstep as <- <-.
  unfold modify in Hrun. injection Hrun as <-.
  exists a0. simpl. repeat split; assumption.
Qed.

Lemma _do_crossover_returns (self : VarOr C rng) (population : list C) (i : nat)
    (w w' : world C rng) :
  _do_crossover self population i w = (Returns tt, w') ->
  exists child : C,
    offspring w' = offspring w ++ [set_fit_set false child]
    /\ crossover_offspring w' = <[i := true]> (crossover_offspring w)
    /\ (i < length (crossover_offspring w))%nat
    /\ mutation_offspring w' = mutation_offspring w
    /\ history w' = history w.
Proof.
  unfold _do_crossover. intros Hrun.
  returning Hrun. apply _get_random_parent_returns in Hstep. destruct Hstep as [g ->].
  returning Hrun. apply _get_random_parent_returns in Hstep. destruct Hstep as [g1 ->].
  returning Hrun. unfold call_crossover in Hstep.
  destruct (_crossover self a a0 _) as [children g']. injection Hstep as -> <-.
  returning Hrun. unfold _append_new_individual_to_offspring, modify in Hstep.
  injection Hstep as _ <-.
  returning Hrun. unfold gets in Hstep. injection Hstep as <- <-.
  returning Hrun. unfold lift, np_setitem in Hstep. simpl in Hstep.
  destruct (Nat.ltb_spec i (length (crossover_offspring w))); [|discriminate].
  injection Hstep as <- <-.
  unfold modify in Hrun. injection Hrun as <-.
  exists (fst a1). simpl. repeat split; assumption.
Qed.

Lemma _do_replication_returns (population : list C) (w w' : world C rng) :
  _do_replication population w = (Returns tt, w') ->
  exists child : C,
    offspring w' = offspring w ++ [set_fit_set false child]
    /\ crossover_offspring w' = crossover_offspring w
    /\ mutation_offspring w' = mutation_offspring w
    /\ history w' = history w.
Proof.
  unfold _do_replication. intros Hrun.
  returning Hrun. apply _get_random_parent_returns in Hstep. destruct Hstep as [g ->].
  unfold _append_new_individual_to_offspring, modify in Hrun.
  injection Hrun as <-.
  exists a. simpl. repeat split.
Qed.

(** A completed slot: one draw, the branch the partition gives for it, one
    more offspring with its fitness unset, and the flag of the branch. *)
Lemma slot_returns (self : VarOr C rng) (population : list C) (i : nat)
    (w w' : world C rng) :
  slot self population i w = (Returns tt, w') ->
  exists (u : float) (p : path) (child : C),
    history w' = history w ++ [(u, p)]
    /\ offspring w' = offspring w ++ [set_fit_set false child]
    /\ partition (_mutation_probability self) (_crossover_probability self) u p
    /\ mutation_offspring w'
       = (if path_eqb p Mutation then <[i := true]> (mutation_offspring w)
          else mutation_offspring w)
    /\ crossover_offspring w'
       = (if path_eqb p Crossover then <[i := true]> (crossover_offspring w)
          else crossover_offspring w).
Proof.
  unfold slot. intros Hrun.
  returning Hrun. unfold np_random_rand in Hstep.
  destruct (rand_draw (random_state w)) as [u g]. injection Hstep as <- <-.
  destruct (u <=? _mutation_probability self)%float eqn:Hm;
    [|destruct (u <=? _mutation_probability self + _crossover_probability self)%float
        eqn:Hc].
  - returning Hrun. destruct a. apply _do_mutation_returns in Hstep.
    destruct Hstep as (child & Hoff & Hmut & _ & Hcross & Hhist).
    unfold note, modify in Hrun. injection Hrun as <-.
    exists u, Mutation, child. simpl. rewrite Hoff, Hmut, Hcross, Hhist. simpl.
    repeat split; try congruence.
    intros Hlt. apply ltb_leb_false in Hlt. congruence.
  - returning Hrun. destruct a. apply _do_crossover_returns in Hstep.
    destruct Hstep as (child & Hoff & Hcross & _ & Hmut & Hhist).
    unfold note, modify in Hrun. injection Hrun as <-.
    exists u, Crossover, child. simpl. rewrite Hoff, Hmut, Hcross, Hhist. simpl.
    repeat split; congruence.
  - returning Hrun. destruct a. apply _do_replication_returns in Hstep.
    destruct Hstep as (child & Hoff & Hcross & Hmut & Hhist).
    unfold note, modify in Hrun. injection Hrun as <-.
    exists u, Replication, child. simpl. rewrite Hoff, Hmut, Hcross, Hhist. simpl.
    repeat split; congruence.
Qed.

Lemma slot_consistent (self : VarOr C rng) (population : list C) (n i : nat)
    (w w' : world C rng) :
  consistent self n i w -> (i < n)%nat ->
  slot self population i w = (Returns tt, w') ->
  consistent self n (S i) w'.
Proof.
  intros (Hhist & Hoff & Hmut & Hcross & Hunset & Hdone & Htodo) Hi Hrun.
  apply slot_returns in Hrun.
  destruct Hrun as (u & p & child & Hhist' & Hoff' & Hpart & Hmut' & Hcross').
  destruct (Htodo i) as [Hmi Hci]; [lia|].
  unfold consistent. rewrite Hhist', Hoff', Hmut', Hcross'.
  split; [rewrite length_app; simpl; lia|].
  split; [rewrite length_app; simpl; lia|].
  split; [destruct (path_eqb p Mutation); rewrite ?length_insert; assumption|].
  split; [destruct (path_eqb p Crossover); rewrite ?length_insert; assumption|].
  split.
  { apply Forall_app. split; [assumption|].
    apply Forall_singleton, fit_set_assigned. }
  split.
  - intros j u' p' Hj.
    destruct (Nat.lt_trichotomy j i) as [Hlt|[->|Hgt]].
    + rewrite lookup_app_l in Hj by lia.
      destruct (Hdone j u' p' Hj) as (Hp & Hm & Hc).
      split; [assumption|].
      split.
      * destruct (path_eqb p Mutation);
          [rewrite list_lookup_insert_ne by lia|]; assumption.
      * destruct (path_eqb p Crossover);
          [rewrite list_lookup_insert_ne by lia|]; assumption.
    + rewrite lookup_app_r in Hj by lia.
      rewrite Hhist, Nat.sub_diag in Hj. injection Hj as <- <-.
      split; [assumption|].
      split.
      * destruct (path_eqb p Mutation);
          [apply list_lookup_insert_eq; lia|assumption].
      * destruct (path_eqb p Crossover);
          [apply list_lookup_insert_eq; lia|assumption].
    + apply lookup_lt_Some in Hj. rewrite length_app in Hj. simpl in Hj. lia.
  - intros j Hj. destruct (Htodo j) as [Hmj Hcj]; [lia|].
    split.
    + destruct (path_eqb p Mutation);
        [rewrite list_lookup_insert_ne by lia|]; assumption.
    + destruct (path_eqb p Crossover);
        [rewrite list_lookup_insert_ne by lia|]; assumption.
Qed.

(** With a parent to draw and operators that return, a slot is completed. *)
Lemma slot_total (self : VarOr C rng) (population : list C) (i : nat)
    (w : world C rng) :
  population <> [] ->
  operators_return self ->
  (i < length (mutation_offspring w))%nat ->
  (i < length (crossover_offspring w))%nat ->
  exists w' : world C rng, slot self population i w = (Returns tt, w').
Proof.
  intros Hne [Hmutation Hcrossover] Hmut Hcross.
  unfold slot, bind at 1, np_random_rand.
  destruct (rand_draw (random_state w)) as [u g].
  destruct (u <=? _mutation_probability self)%float;
    [|destruct (u <=? _mutation_probability self + _crossover_probability self)%float].
  - unfold _do_mutation.
    destruct (_get_random_parent_total population (with_random_state g w) Hne)
      as (parent & g1 & Hparent).
    unfold bind at 1 2. rewrite Hparent.
    unfold bind, call_mutation. simpl.
    destruct (Hmutation parent g1) as (mutant & g2 & ->). simpl.
    unfold np_setitem.
    destruct (Nat.ltb_spec i (length (mutation_offspring w))); [|lia].
    simpl. eexists. reflexivity.
  - unfold _do_crossover.
    destruct (_get_random_parent_total population (with_random_state g w) Hne)
      as (parent_1 & g1 & Hparent_1).
    unfold bind at 1 2. rewrite Hparent_1.
    destruct (_get_random_parent_total population
                (with_random_state g1 (with_random_state g w)) Hne)
      as (parent_2 & g2 & Hparent_2).
    unfold bind at 1. rewrite Hparent_2.
    unfold bind, call_crossover. simpl.
    destruct (Hcrossover parent_1 parent_2 g2) as (children & g3 & ->). simpl.
    unfold np_setitem.
    destruct (Nat.ltb_spec i (length (crossover_offspring w))); [|lia].
    simpl. eexists. reflexivity.
  - unfold _do_replication.
    destruct (_get_random_parent_total population (with_random_state g w) Hne)
      as (child & g1 & Hchild).
    unfold bind at 1 2. rewrite Hchild.
    simpl. eexists. reflexivity.
Qed.


(** *** The loop and the call *)

Lemma for_range_consistent (self : VarOr C rng) (population : list C) (n : nat) :
  forall (count start : nat) (w w' : world C rng),
    consistent self n start w -> (start + count <= n)%nat ->
    for_range (slot self population) start count w = (Returns tt, w') ->
    consistent self n (start + count) w'.
Proof.
  induction count as [|count IH]; intros start w w' Hinv Hle Hrun.
  - simpl in Hrun. unfold ret in Hrun. injection Hrun as <-.
    rewrite Nat.add_0_r. assumption.
  - cbn [for_range] in Hrun. returning Hrun. destruct a.
    replace (start + S count)%nat with (S start + count)%nat by lia.
    apply (IH (S start) w0 w'); [|lia|assumption].
    apply (slot_consistent self population n start w w0); [assumption|lia|assumption].
Qed.

Lemma for_range_total (self : VarOr C rng) (population : list C) (n : nat) :
  population <> [] ->
  operators_return self ->
  forall (count start : nat) (w : world C rng),
    consistent self n start w -> (start + count <= n)%nat ->
    exists w' : world C rng,
      for_range (slot self population) start count w = (Returns tt, w').
Proof.
  intros Hne Hops. induction count as [|count IH]; intros start w Hinv Hle.
  - exists w. reflexivity.
  - pose proof Hinv as (_ & _ & Hmut & Hcross & _).
    destruct (slot_total self population start w Hne Hops) as [w1 Hslot]; [lia|lia|].
    destruct (IH (S start) w1) as [w' Hrest]; [|lia|].
    { apply (slot_consistent self population n start w w1); [assumption|lia|assumption]. }
    exists w'. cbn [for_range]. rewrite (bind_run _ _ _ _ _ Hslot). exact Hrest.
Qed.


(** The world in which the loop of [__call__] starts. *)
Lemma call_unfolded (self : VarOr C rng) (population : list C) (n : Z)
    (w : world C rng) :
  (0 <= n)%Z ->
  __call__ self population n w
  = bind (for_range (slot self population) 0 (Z.to_nat n)) (fun _ => gets offspring)
      (with_mutation_offspring (np_zeros n)
         (with_crossover_offspring (np_zeros n)
            (with_history [] (with_offspring [] w)))).
Proof.
  intros Hn. unfold __call__, argument_validation.
  destruct (Z.leb_spec 0 n); [|lia]. reflexivity.
Qed.

Lemma started_consistent (self : VarOr C rng) (n : Z) (w : world C rng) :
  consistent self (Z.to_nat n) 0
    (with_mutation_offspring (np_zeros n)
       (with_crossover_offspring (np_zeros n)
          (with_history [] (with_offspring [] w)))).
Proof.
  unfold consistent, np_zeros. simpl. rewrite !length_replicate.
  split; [reflexivity|]. split; [reflexivity|].
  split; [reflexivity|]. split; [reflexivity|].
  split; [constructor|]. split.
  - intros i u p Hi. rewrite lookup_nil in Hi. discriminate.
  - intros i Hi. split; apply lookup_replicate_2; lia.
Qed.

Lemma call_returns (self : VarOr C rng) (population : list C) (n : Z)
    (w w' : world C rng) (l : list C) :
  __call__ self population n w = (Returns l, w') ->
  (0 <= n)%Z /\ l = offspring w'
  /\ consistent self (Z.to_nat n) (Z.to_nat n) w'.
Proof.
  intros Hrun.
  assert (Hn : (0 <= n)%Z).
  { destruct (Z.leb_spec 0 n) as [|Hneg]; [assumption|].
    unfold __call__, argument_validation in Hrun.
    destruct (Z.leb_spec 0 n); [lia|]. discriminate. }
  split; [assumption|].
  rewrite (call_unfolded self population n w Hn) in Hrun.
  returning Hrun. destruct a. unfold gets in Hrun. injection Hrun as <- <-.
  split; [reflexivity|].
  apply (for_range_consistent self population (Z.to_nat n) (Z.to_nat n) 0 _ _
           (started_consistent self n w) (Nat.le_refl _) Hstep).
Qed.

Lemma call_total (self : VarOr C rng) (population : list C) (n : Z)
    (w : world C rng) :
  (0 <= n)%Z -> population <> [] -> operators_return self ->
  exists (l : list C) (w' : world C rng),
    __call__ self population n w = (Returns l, w').
Proof.
  intros Hn Hne Hops. rewrite (call_unfolded self population n w Hn).
  destruct (for_range_total self population (Z.to_nat n) Hne Hops (Z.to_nat n) 0 _
              (started_consistent self n w) (Nat.le_refl _)) as [w' Hloop].
  exists (offspring w'), w'. rewrite (bind_run _ _ _ _ _ Hloop). reflexivity.
Qed.

(** *** Where the offspring come from *)

Lemma _get_random_parent_member (population : list C) (w w' : world C rng) (c : C) :
  _get_random_parent population w = (Returns c, w') ->
  exists (parent : C) (g : rng),
    parent ∈ population /\ c = copy parent /\ w' = with_random_state g w.
Proof.
  unfold _get_random_parent. intros Hrun.
  returning Hrun. returning Hrun.
  unfold np_random_randint in Hstep.
  destruct (Z.of_nat (length population) <=? 0)%Z; [discriminate|].
  destruct (randint_draw _ _) as [k g]. injection Hstep as -> <-.
  unfold lift, py_getitem in Hstep0.
  destruct ((0 <=? (if (a <? 0)%Z then (a + Z.of_nat (length population))%Z else a))%Z
            && ((if (a <? 0)%Z then (a + Z.of_nat (length population))%Z else a)
                <? Z.of_nat (length population))%Z)%bool; [|discriminate].
  destruct (population !! _) as [parent|] eqn:Hparent; [|discriminate].
  injection Hstep0 as <- <-.
  unfold ret in Hrun. injection Hrun as <- <-.
  exists parent, g. split; [|split; reflexivity].
  eapply list_elem_of_lookup_2. eassumption.
Qed.

Lemma slot_traced (self : VarOr C rng) (population : list C) (i : nat)
    (w w' : world C rng) :
  slot self population i w = (Returns tt, w') ->
  exists (u : float) (p : path) (child : C),
    history w' = history w ++ [(u, p)]
    /\ offspring w' = offspring w ++ [child]
    /\ produced_by self population p child.
Proof.
  unfold slot. intros Hrun.
  returning Hrun. unfold np_random_rand in Hstep.
  destruct (rand_draw (random_state w)) as [u g]. injection Hstep as <- <-.
  destruct (u <=? _mutation_probability self)%float;
    [|destruct (u <=? _mutation_probability self + _crossover_probability self)%float].
  - returning Hrun. destruct a. unfold _do_mutation in Hstep.
    returning Hstep. apply _get_random_parent_member in Hstep0.
    destruct Hstep0 as (parent & g1 & Hin & -> & ->).
    returning Hstep. unfold call_mutation in Hstep0.
    destruct (_mutation self (copy parent) _) as [[mutant|e] g2] eqn:Hmutant;
      [|discriminate].
    injection Hstep0 as <- <-.
    returning Hstep. unfold _append_new_individual_to_offspring, modify in Hstep0.
    injection Hstep0 as _ <-.
    returning Hstep. unfold gets in Hstep0. injection Hstep0 as <- <-.
    returning Hstep. unfold lift in Hstep0. simpl in Hstep0.
    destruct (np_setitem (mutation_offspring w) i true) as [flags|e]; [|discriminate].
    injection Hstep0 as <- <-.
    unfold modify in Hstep. injection Hstep as <-.
    unfold note, modify in Hrun. injection Hrun as <-.
    exists u, Mutation, (set_fit_set false mutant). simpl.
    split; [reflexivity|]. split; [reflexivity|].
    exists parent, mutant, g1, g2. split; [assumption|].
    split; [exact Hmutant|reflexivity].
  - returning Hrun. destruct a. unfold _do_crossover in Hstep.
    returning Hstep. apply _get_random_parent_member in Hstep0.
    destruct Hstep0 as (parent_1 & g1 & Hin_1 & -> & ->).
    returning Hstep. apply _get_random_parent_member in Hstep0.
    destruct Hstep0 as (parent_2 & g2 & Hin_2 & -> & ->).
    returning Hstep. unfold call_crossover in Hstep0.
    destruct (_crossover self (copy parent_1) (copy parent_2) _)
      as [[[child_1 child_2]|e] g3] eqn:Hchildren; [|discriminate].
    injection Hstep0 as <- <-.
    returning Hstep. unfold _append_new_individual_to_offspring, modify in Hstep0.
    injection Hstep0 as _ <-.
    returning Hstep. unfold gets in Hstep0. injection Hstep0 as <- <-.
    returning Hstep. unfold lift in Hstep0. simpl in Hstep0.
    destruct (np_setitem (crossover_offspring w) i true) as [flags|e]; [|discriminate].
    injection Hstep0 as <- <-.
    unfold modify in Hstep. injection Hstep as <-.
    unfold note, modify in Hrun. injection Hrun as <-.
    exists u, Crossover, (set_fit_set false child_1). simpl.
    split; [reflexivity|]. split; [reflexivity|].
    exists parent_1, parent_2, child_1, child_2, g2, g3.
    split; [assumption|]. split; [assumption|].
    split; [exact Hchildren|reflexivity].
  - returning Hrun. destruct a. unfold _do_replication in Hstep.
    returning Hstep. apply _get_random_parent_member in Hstep0.
    destruct Hstep0 as (parent & g1 & Hin & -> & ->).
    unfold _append_new_individual_to_offspring, modify in Hstep.
    injection Hstep as <-.
    unfold note, modify in Hrun. injection Hrun as <-.
    exists u, Replication, (set_fit_set false (copy parent)). simpl.
    split; [reflexivity|]. split; [reflexivity|].
    exists parent. split; [assumption|reflexivity].
Qed.

Lemma for_range_traced (self : VarOr C rng) (population : list C) :
  forall (count start : nat) (w w' : world C rng),
    traced self population w ->
    for_range (slot self population) start count w = (Returns tt, w') ->
    traced self population w'.
Proof.
  induction count as [|count IH]; intros start w w' Htraced Hrun.
  - simpl in Hrun. unfold ret in Hrun. injection Hrun as <-. assumption.
  - cbn [for_range] in Hrun. returning Hrun. destruct a.
    apply (IH (S start) w0 w'); [|assumption].
    apply slot_traced in Hstep.
    destruct Hstep as (u & p & child & Hhist & Hoff & Hmade).
    destruct Htraced as [Hlen Hrows].
    split.
    + rewrite Hhist, Hoff, !length_app. simpl. lia.
    + intros j u' p' Hj. rewrite Hhist in Hj. rewrite Hoff.
      destruct (decide (j < length (history w))%nat) as [Hlt|Hge].
      * rewrite lookup_app_l in Hj by assumption.
        destruct (Hrows j u' p' Hj) as (child' & Hchild' & Hmade').
        exists child'. split; [|assumption].
        rewrite lookup_app_l by lia. assumption.
      * rewrite lookup_app_r in Hj by lia.
        destruct (j - length (history w))%nat as [|k] eqn:Hk; [|discriminate].
        injection Hj as <- <-. exists child. split; [|assumption].
        rewrite lookup_app_r by lia.
        replace (j - length (offspring w))%nat with 0%nat by lia. reflexivity.
Qed.

Lemma call_traced (self : VarOr C rng) (population : list C) (n : Z)
    (w w' : world C rng) (l : list C) :
  (0 <= n)%Z ->
  __call__ self population n w = (Returns l, w') ->
  for_range (slot self population) 0 (Z.to_nat n) (at_loop_start n w) = (Returns tt, w')
  /\ traced self population w'.
Proof.
  intros Hn Hrun. rewrite (call_unfolded self population n w Hn) in Hrun.
  returning Hrun. destruct a. unfold gets in Hrun. injection Hrun as _ <-.
  split; [exact Hstep|].
  apply for_range_traced in Hstep; [exact Hstep|].
  split; [reflexivity|]. intros i u p Hi. simpl in Hi.
  rewrite lookup_nil in Hi. discriminate.
Qed.

(** *** One draw for each slot *)

Lemma slot_notes_its_draw (self : VarOr C rng) (population : list C) (i : nat)
    (w w' : world C rng) :
  slot self population i w = (Returns tt, w') ->
  exists p : path,
    history w' = history w ++ [(fst (rand_draw (random_state w)), p)].
Proof.
  unfold slot. intros Hrun.
  returning Hrun. unfold np_random_rand in Hstep.
  destruct (rand_draw (random_state w)) as [u g]. injection Hstep as <- <-.
  destruct (u <=? _mutation_probability self)%float;
    [|destruct (u <=? _mutation_probability self + _crossover_probability self)%float].
  - returning Hrun. destruct a. apply _do_mutation_returns in Hstep.
    destruct Hstep as (child & _ & _ & _ & _ & Hhist).
    unfold note, modify in Hrun. injection Hrun as <-.
    exists Mutation. simpl. rewrite Hhist. reflexivity.
  - returning Hrun. destruct a. apply _do_crossover_returns in Hstep.
    destruct Hstep as (child & _ & _ & _ & _ & Hhist).
    unfold note, modify in Hrun. injection Hrun as <-.
    exists Crossover. simpl. rewrite Hhist. reflexivity.
  - returning Hrun. destruct a. apply _do_replication_returns in Hstep.
    destruct Hstep as (child & _ & _ & _ & Hhist).
    unfold note, modify in Hrun. injection Hrun as <-.
    exists Replication. simpl. rewrite Hhist. reflexivity.
Qed.

Lemma for_range_history_grows (self : VarOr C rng) (population : list C) :
  forall (count start : nat) (w w' : world C rng),
    for_range (slot self population) start count w = (Returns tt, w') ->
    exists rest : list (float * path), history w' = history w ++ rest.
Proof.
  induction count as [|count IH]; intros start w w' Hrun.
  - simpl in Hrun. unfold ret in Hrun. injection Hrun as <-.
    exists []. rewrite app_nil_r. reflexivity.
  - cbn [for_range] in Hrun. returning Hrun. destruct a.
    apply slot_notes_its_draw in Hstep. destruct Hstep as [p Hp].
    destruct (IH (S start) w0 w' Hrun) as [rest Hrest].
    eexists. rewrite Hrest, Hp, <- app_assoc. reflexivity.
Qed.

(** C1, as amended: a call of [__call__] with [number_offspring = n >= 0] on
    a population with at least one member, with operators that return,
    returns a list of exactly [n] offspring. For each slot [i], one float [u]
    is drawn from the random source in the state in which the slot begins, and
    the branch that produces the offspring of the slot and sets its flag is the
    one the partition gives for [u]: mutation when [u <= pm], crossover when
    [pm < u <= pm + pc], replication otherwise; the comparison with [pm] comes
    first, so a draw that passes both comparisons is a mutation. *)
Theorem call_produces_n_offspring_by_partition
    (self : VarOr C rng) (population : list C) (n : Z) (w : world C rng) :
  (0 <= n)%Z ->
  population <> [] ->
  operators_return self ->
  exists (l : list C) (w' : world C rng),
    __call__ self population n w = (Returns l, w')
    /\ length l = Z.to_nat n
    /\ forall i : nat,
         (i < Z.to_nat n)%nat ->
         exists (wi : world C rng) (p : path) (child : C),
           for_range (slot self population) 0 i (at_loop_start n w) = (Returns tt, wi)
           /\ (let u := fst (rand_draw (random_state wi)) in
               ((u <=? _mutation_probability self)%float = true -> p = Mutation)
               /\ ((_mutation_probability self <? u)%float = true ->
                   (u <=? _mutation_probability self + _crossover_probability self)%float
                   = true ->
                   p = Crossover)
               /\ ((u <=? _mutation_probability self)%float = false ->
                   (u <=? _mutation_probability self + _crossover_probability self)%float
                   = false ->
                   p = Replication))
           /\ l !! i = Some child
           /\ produced_by self population p child
           /\ mutation_offspring w' !! i = Some (path_eqb p Mutation)
           /\ crossover_offspring w' !! i = Some (path_eqb p Crossover).
Proof.
  intros Hn Hne Hops.
  destruct (call_total self population n w Hn Hne Hops) as (l & w' & Hrun).
  exists l, w'. split; [exact Hrun|].
  destruct (call_returns self population n w w' l Hrun)
    as (_ & Hl & _ & Hoff & _ & _ & _ & Hdone & _).
  split; [rewrite Hl; exact Hoff|].
  destruct (call_traced self population n w w' l Hn Hrun) as [Hloop [_ Hmade]].
  intros i Hi.
  replace (Z.to_nat n) with (i + S (Z.to_nat n - S i))%nat in Hloop by lia.
  apply for_range_split in Hloop. destruct Hloop as (wi & Hbefore & Hafter).
  cbn [for_range] in Hafter. returning Hafter. destruct a.
  pose proof (for_range_consistent self population (Z.to_nat n) i 0 _ wi
                (started_consistent self n w) ltac:(lia) Hbefore)
    as (Hlength & _).
  destruct (slot_notes_its_draw self population _ wi w0 Hstep) as [p Hp].
  destruct (for_range_history_grows self population _ _ w0 w' Hafter) as [rest Hrest].
  assert (Hentry : history w' !! i = Some (fst (rand_draw (random_state wi)), p)).
  { rewrite Hrest, Hp. rewrite lookup_app_l by (rewrite length_app; simpl; lia).
    rewrite lookup_app_r by lia.
    replace (i - length (history wi))%nat with 0%nat by lia. reflexivity. }
  destruct (Hdone i _ p Hentry) as (Hpartition & Hmutated & Hcrossed).
  destruct (Hmade i _ p Hentry) as (child & Hchild & Hproduced).
  exists wi, p, child.
  split; [exact Hbefore|]. split; [exact Hpartition|].
  split; [rewrite Hl; exact Hchild|].
  split; [exact Hproduced|]. split; assumption.
Qed.

(** C3: every offspring in the list returned by [__call__] has its
    [fit_set] flag false, whichever branch produced it and whatever the flag
    of the parent was. *)
Theorem call_returns_offspring_with_fitness_unset
    (self : VarOr C rng) (population : list C) (n : Z) (w w' : world C rng)
    (l : list C) :
  __call__ self population n w = (Returns l, w') ->
  Forall (fun child => fit_set child = false) l.
Proof.
  intros Hrun.
  destruct (call_returns self population n w w' l Hrun)
    as (_ & -> & _ & _ & _ & _ & Hunset & _).
  exact Hunset.
Qed.


End WithCollaborators.

(** *** The theorems at work on a concrete call *)

Import Reference.

Lemma init_fails_exactly_on_excess_sum_witness :
  returned (__init__ Reference.crossover Reference.mutation
              0x1.6666666666666p-1%float 0.5%float) = false
  /\ returned (__init__ Reference.crossover Reference.mutation
                 0.25%float 0.5%float) = true.
Proof.
  split.
  - apply (init_fails_exactly_on_excess_sum Reference.crossover Reference.mutation
             0x1.6666666666666p-1%float 0.5%float); reflexivity.
  - rewrite (proj2 (proj2 (init_fails_exactly_on_excess_sum
                             Reference.crossover Reference.mutation
                             0.25%float 0.5%float) eq_refl eq_refl) eq_refl).
    reflexivity.
Defined.

Lemma reference_operators_return : operators_return Reference.variation.
Proof.
  split.
  - intros parent g. eexists. eexists. reflexivity.
  - intros parent_1 parent_2 g. eexists. eexists. reflexivity.
Qed.

Lemma call_produces_n_offspring_by_partition_witness :
  exists (l : list AGraph.AGraph) (w' : world AGraph.AGraph Reference.script),
    __call__ Reference.variation Reference.population 3 Reference.before
    = (Returns l, w')
    /\ length l = 3%nat
    /\ mutation_offspring w' = [true; false; false]
    /\ crossover_offspring w' = [false; true; false].
Proof.
  destruct (call_produces_n_offspring_by_partition
              Reference.variation Reference.population 3 Reference.before
              ltac:(lia) ltac:(discriminate) reference_operators_return)
    as (l & w' & Hrun & Hlength & _).
  exists l, w'. split; [exact Hrun|]. split; [exact Hlength|].
  assert (Hw' : w' = snd (__call__ Reference.variation Reference.population 3
                            Reference.before))
    by (rewrite Hrun; reflexivity).
  rewrite Hw'. vm_compute. split; reflexivity.
Defined.

(** C1, as worded, fails on two calls with [number_offspring = 1]: on an
    empty population the draw of a parent raises, and on a population with
    members a mutation operator that raises ends the call; in both no
    offspring is produced. *)
Lemma call_can_end_without_offspring :
  (fst (__call__ Reference.variation [] 1 Reference.before)
   = Raises (Exn ValueError "high <= 0")
   /\ offspring (snd (__call__ Reference.variation [] 1 Reference.before)) = [])
  /\ (fst (__call__ Samples.variation_with_failing_mutation Reference.population 1
             Reference.before)
      = Raises (Exn ValueError "no command to mutate")
      /\ offspring (snd (__call__ Samples.variation_with_failing_mutation
                           Reference.population 1 Reference.before)) = []).
Proof.
  vm_compute. repeat split.
Qed.

Lemma call_returns_offspring_with_fitness_unset_witness :
  AGraph.fit_set Reference.sum_of_constants = true
  /\ Forall (fun child => AGraph.fit_set child = false)
       (match fst (__call__ Reference.variation Reference.population 3
                     Reference.before) with
        | Returns l => l
        | Raises _ => []
        end).
Proof.
  split; [reflexivity|].
  destruct (__call__ Reference.variation Reference.population 3 Reference.before)
    as [[l|e] w'] eqn:Hrun; [|constructor].
  exact (call_returns_offspring_with_fitness_unset
           Reference.variation Reference.population 3 Reference.before w' l Hrun).
Defined.


End VarOrFacts.


(* ===================================================================== *)
(** ** Further properties of VarOr *)
(* ===================================================================== *)

Module VarOrMoreFacts.
Import VarOr VarOrRest FloatOrder Steps VarOrFacts.

Ltac stepping H :=
  let a := fresh "a" in
  let w := fresh "w" in
  let Hstep := fresh "Hstep" in
  apply bind_returns in H; destruct H as (a & w & Hstep & H).

Section WithCollaborators.
Context {C : Type} `{Chromosome C} {rng : Type} `{NumpyRandom rng}.

(** X2: in the list returned by [__call__], the offspring of every slot is
    what the branch taken for the slot makes of the population: the mutation
    of a copy of a member, the first of the two children of the crossover of
    copies of two members, or a copy of a member, each with [fit_set] false. *)
Theorem call_offspring_come_from_the_population
    (self : VarOr C rng) (population : list C) (n : Z) (w w' : world C rng)
    (l : list C) :
  __call__ self population n w = (Returns l, w') ->
  forall (i : nat) (u : float) (p : path),
    history w' !! i = Some (u, p) ->
    exists child : C, l !! i = Some child /\ produced_by self population p child.
Proof.
  intros Hrun.
  assert (Hn : (0 <= n)%Z).
  { destruct (Z.leb_spec 0 n) as [|Hneg]; [assumption|].
    unfold __call__, argument_validation in Hrun.
    destruct (Z.leb_spec 0 n); [lia|]. discriminate. }
  unfold __call__, argument_validation in Hrun.
  destruct (Z.leb_spec 0 n); [|lia].
  stepping Hrun. unfold ret in Hstep. injection Hstep as _ <-.
  stepping Hrun. unfold modify in Hstep. injection Hstep as _ <-.
  stepping Hrun. unfold modify in Hstep. injection Hstep as _ <-.
  stepping Hrun. unfold modify in Hstep. injection Hstep as _ <-.
  stepping Hrun. destruct a3. unfold gets in Hrun. injection Hrun as <- <-.
  apply for_range_traced in Hstep.
  - destruct Hstep as [_ Hrows]. exact Hrows.
  - split; [reflexivity|]. intros i u p Hi. simpl in Hi.
    rewrite lookup_nil in Hi. discriminate.
Qed.

(** *** Calls that fail, and what a call forgets *)

(** X1: on an empty population a call for [n > 0] offspring raises the
    [ValueError] of [np.random.randint(0)] in its first slot, whichever branch
    the draw selects: one float has been drawn, no offspring was produced, and
    the two flag arrays are left with [n] entries, all false. *)
Theorem call_on_empty_population_raises
    (self : VarOr C rng) (n : Z) (w : world C rng) :
  (0 < n)%Z ->
  let run := __call__ self [] n w in
  fst run = Raises (Exn ValueError "high <= 0")
  /\ random_state (snd run) = snd (rand_draw (random_state w))
  /\ offspring (snd run) = []
  /\ history (snd run) = []
  /\ mutation_offspring (snd run) = replicate (Z.to_nat n) false
  /\ crossover_offspring (snd run) = replicate (Z.to_nat n) false.
Proof.
  intros Hn run. unfold run, __call__, argument_validation.
  destruct (Z.leb_spec 0 n); [|lia].
  destruct (Z.to_nat n) as [|k] eqn:Hk; [lia|].
  unfold bind, ret, modify, gets. cbn [for_range]. unfold bind, slot, bind.
  unfold np_random_rand. simpl.
  destruct (rand_draw (random_state w)) as [u g]. simpl.
  unfold np_zeros. rewrite Hk.
  destruct (u <=? _mutation_probability self)%float;
    [|destruct (u <=? _mutation_probability self + _crossover_probability self)%float];
    repeat split.
Qed.

(** X3: a call starts from fresh arrays: for [n >= 0] its outcome, the
    offspring and the flags it leaves depend on the state of the random source
    only, not on the offspring, flags or history that an earlier call left. *)
Theorem call_forgets_the_previous_call
    (self : VarOr C rng) (population : list C) (n : Z) (w1 w2 : world C rng) :
  (0 <= n)%Z ->
  random_state w1 = random_state w2 ->
  __call__ self population n w1 = __call__ self population n w2.
Proof.
  intros Hn Hrandom. unfold __call__, argument_validation.
  destruct (Z.leb_spec 0 n); [|lia].
  unfold bind at 1 2 3 4. unfold bind at 2 3 4 5. unfold ret, modify.
  assert (Hstart :
    with_mutation_offspring (np_zeros n)
      (with_crossover_offspring (np_zeros n) (with_history [] (with_offspring [] w1)))
    = with_mutation_offspring (np_zeros n)
        (with_crossover_offspring (np_zeros n) (with_history [] (with_offspring [] w2)))).
  { unfold with_mutation_offspring, with_crossover_offspring, with_history,
      with_offspring. simpl. rewrite Hrandom. reflexivity. }
  rewrite Hstart. reflexivity.
Qed.

(** X4: the test on the sum does not keep the stored replication probability
    from being negative: the sum is rounded, and there are probabilities in
    [0,1] that [__init__] accepts and for which [1 - pc - pm] is below zero. *)
Theorem init_can_store_a_negative_replication_probability
    (crossover : C -> C -> rng -> outcome (C * C) * rng)
    (mutation : C -> rng -> outcome C * rng) :
  exists (pc pm : float) (self : VarOr C rng),
    in_unit_interval pc = true
    /\ in_unit_interval pm = true
    /\ __init__ crossover mutation pc pm = Returns self
    /\ (_replication_probability self <? 0)%float = true.
Proof.
  exists 0.5%float, Samples.just_above_half. eexists.
  split; [reflexivity|]. split; [reflexivity|]. split; reflexivity.
Qed.

End WithCollaborators.

Import Reference.

Lemma call_on_empty_population_raises_witness :
  fst (__call__ variation [] 2 before) = Raises (Exn ValueError "high <= 0")
  /\ mutation_offspring (snd (__call__ variation [] 2 before)) = [false; false].
Proof.
  destruct (call_on_empty_population_raises variation 2 before ltac:(lia))
    as (Hraises & _ & _ & _ & Hmutation & _).
  split; assumption.
Defined.

Lemma call_forgets_the_previous_call_witness :
  __call__ variation population 3 Samples.left_by_previous_call
  = __call__ variation population 3 before.
Proof.
  apply (call_forgets_the_previous_call variation population 3
           Samples.left_by_previous_call before); [lia|reflexivity].
Defined.

Lemma call_offspring_come_from_the_population_witness :
  exists child : AGraph.AGraph,
    fst (__call__ variation population 3 before) = Returns [
      AGraph.set_command_array
        (AGraph._command_array sum_of_constants ++ [AGraph.Command 6 0 0])
        sum_of_constants; child; variable ]
    /\ VarOrRest.produced_by variation population Crossover child.
Proof.
  destruct (__call__ variation population 3 before) as [o w'] eqn:Hrun.
  assert (Ho : o = fst (__call__ variation population 3 before))
    by (rewrite Hrun; reflexivity).
  assert (Hw' : w' = snd (__call__ variation population 3 before))
    by (rewrite Hrun; reflexivity).
  vm_compute in Ho. vm_compute in Hw'. subst o.
  destruct (call_offspring_come_from_the_population
              variation population 3 before w' _ Hrun 1%nat 0.75%float Crossover)
    as (child & Hchild & Hmade).
  { rewrite Hw'. reflexivity. }
  exists child. split; [|exact Hmade].
  simpl in Hchild. injection Hchild as <-. reflexivity.
Defined.

End VarOrMoreFacts.


(* ===================================================================== *)
(** ** Further properties of AGraph *)
(* ===================================================================== *)

Module AGraphMoreFacts.
Import AGraph AGraphRest Steps AGraphFacts.

(** *** Counting utilized constant-loads *)

Lemma constant_loads_between_split (util : list bool) (a : list command)
    (start c1 c2 : nat) :
  constant_loads_between util a start (c1 + c2)
  = (constant_loads_between util a start c1
     + constant_loads_between util a (start + c1) c2)%nat.
Proof.
  unfold constant_loads_between. rewrite seq_app, filter_app, length_app. reflexivity.
Qed.

Lemma rank_below_count (util : list bool) (a : list command) (j : nat) :
  (j < length a)%nat ->
  utilized_constant_load util a j = true ->
  (rank util a j < constant_loads_between util a 0 (length a))%nat.
Proof.
  intros Hj Hload. unfold rank.
  replace (length a) with (j + S (length a - S j))%nat by lia.
  rewrite constant_loads_between_split, constant_loads_between_S, Nat.add_0_l, Hload.
  lia.
Qed.

(** The [k]-th utilized constant-load, in index order, has rank [k]. *)
Lemma constant_load_rows_rank (util : list bool) (a : list command) :
  forall (n k j : nat),
    filter (fun j => utilized_constant_load util a j = true) (seq 0 n) !! k = Some j ->
    (j < n)%nat
    /\ utilized_constant_load util a j = true
    /\ rank util a j = k.
Proof.
  induction n as [|n IH]; intros k j Hk.
  - change (seq 0 0) with (@nil nat) in Hk.
    rewrite filter_nil, lookup_nil in Hk. discriminate.
  - rewrite seq_S, filter_app in Hk. rewrite Nat.add_0_l in Hk.
    destruct (decide (k < length (filter (fun j => utilized_constant_load util a j = true)
                                    (seq 0 n)))%nat) as [Hlt|Hge].
    + rewrite lookup_app_l in Hk by assumption.
      destruct (IH k j Hk) as (Hj & Hload & Hrank). repeat split; [lia|assumption..].
    + rewrite lookup_app_r in Hk by lia.
      destruct (utilized_constant_load util a n) eqn:Hn.
      * rewrite filter_cons_True in Hk by assumption.
        rewrite filter_nil in Hk.
        destruct (k - length (filter (fun j => utilized_constant_load util a j = true)
                                (seq 0 n)))%nat as [|k'] eqn:Hk'; [|discriminate].
        injection Hk as <-. split; [lia|]. split; [assumption|].
        unfold rank, constant_loads_between. lia.
      * rewrite filter_cons_False in Hk by congruence.
        rewrite filter_nil, lookup_nil in Hk. discriminate.
Qed.

Section WithBackend.
Context {X FX DFX : Type} {the_backend : Backend X FX DFX}.

(** The rows that are utilized constant-loads are the same before and after
    [get_number_local_optimization_params]. *)
Lemma bound_rows_unchanged (self : AGraph) (util : list bool) (a' : list command) :
  length a' = length (_command_array self) ->
  (forall (j : nat) (c : command),
      _command_array self !! j = Some c ->
      a' !! j
      = Some (if utilized_constant_load util (_command_array self) j
              then Command 1 (Z.of_nat (rank util (_command_array self) j))
                             (Z.of_nat (rank util (_command_array self) j))
              else c)) ->
  forall j : nat,
    utilized_constant_load util a' j
    = utilized_constant_load util (_command_array self) j.
Proof.
  intros Hlen Hrows j. unfold utilized_constant_load at 1 2.
  destruct (util !! j) as [[|]|] eqn:Hu; try reflexivity.
  destruct (_command_array self !! j) as [c|] eqn:Hc.
  - rewrite (Hrows j c Hc). unfold utilized_constant_load. rewrite Hu, Hc.
    destruct (node c =? 1)%Z eqn:Hn; simpl; [reflexivity|assumption].
  - apply lookup_ge_None in Hc. rewrite lookup_ge_None_2 by lia. reflexivity.
Qed.

(** X5: [get_number_local_optimization_params] hands out the slots
    0, 1, ..., count-1 without a gap and without a repetition: the count it
    returns is the number of utilized constant-loads, and the [k]-th of them,
    in index order, is left as [(1, k, k)]. *)
Theorem get_number_local_optimization_params_assigns_dense_slots
    (self : AGraph) (util : list bool) :
  backend_get_utilized_commands (_command_array self) = Returns util ->
  length util = length (_command_array self) ->
  exists self' : AGraph,
    get_number_local_optimization_params self
    = (Returns (Z.of_nat (length (constant_load_rows util (_command_array self)))),
       self')
    /\ constant_load_rows util (_command_array self')
       = constant_load_rows util (_command_array self)
    /\ forall (k j : nat),
         constant_load_rows util (_command_array self) !! k = Some j ->
         _command_array self' !! j = Some (Command 1 (Z.of_nat k) (Z.of_nat k)).
Proof.
  intros Hutil Hlen.
  destruct (get_number_local_optimization_params_run self util Hutil Hlen)
    as (a' & Hrun & Hlen' & Hrows).
  exists (with_command_array a' self). split; [exact Hrun|]. split.
  - unfold constant_load_rows. simpl. rewrite Hlen'.
    apply list_filter_iff. intros j.
    rewrite (bound_rows_unchanged self util a' Hlen' Hrows j). reflexivity.
  - intros k j Hk. simpl.
    destruct (constant_load_rows_rank util _ _ k j Hk) as (Hj & Hload & Hrank).
    destruct (lookup_lt_is_Some_2 _ _ Hj) as [c Hc].
    rewrite (Hrows j c Hc), Hload, Hrank. reflexivity.
Qed.

(** X6: the binding protocol. After
    [get_number_local_optimization_params] has returned [count] and constants
    have been assigned with [set_local_optimization_params], the program
    needs local optimization exactly when fewer than [count] constants were
    given (the liveness vector being the same for the renumbered array). *)
Theorem needs_local_optimization_after_binding
    (self : AGraph) (util : list bool) (params : list float) :
  backend_get_utilized_commands (_command_array self) = Returns util ->
  length util = length (_command_array self) ->
  exists (count : Z) (self1 : AGraph),
    get_number_local_optimization_params self = (Returns count, self1)
    /\ (backend_get_utilized_commands (_command_array self1) = Returns util ->
        needs_local_optimization (set_local_optimization_params params self1)
        = (Returns (Z.of_nat (length params) <? count)%Z,
           set_local_optimization_params params self1)).
Proof.
  intros Hutil Hlen.
  destruct (get_number_local_optimization_params_run self util Hutil Hlen)
    as (a1 & Hrun & Hlen1 & Hrows).
  eexists _, _. split; [exact Hrun|]. intros Hstable.
  set (self2 := set_local_optimization_params params (with_command_array a1 self)).
  assert (Hutil2 : length util = length (_command_array self2))
    by (simpl; lia).
  destruct (needs_local_optimization_from_spec util self2 Hutil2
              (length (_command_array self2)) 0 eq_refl) as (b & Hloop & Hb).
  assert (Hneeds : needs_local_optimization self2 = (Returns b, self2)).
  { unfold needs_local_optimization, get_utilized_commands, bind, gets.
    simpl in Hstable. simpl _command_array at 1. rewrite Hstable. exact Hloop. }
  rewrite Hneeds. f_equal. f_equal.
  pose proof (bound_rows_unchanged self util a1 Hlen1 Hrows) as Hkeep.
  destruct (Z.ltb_spec (Z.of_nat (length params))
              (Z.of_nat (rank util (_command_array self) (length (_command_array self)))))
    as [Hfew|Henough].
  - apply Hb.
    assert (Hk : (length params
                  < length (constant_load_rows util (_command_array self)))%nat).
    { unfold constant_load_rows. unfold rank, constant_loads_between in Hfew. lia. }
    destruct (lookup_lt_is_Some_2 _ _ Hk) as [j Hj].
    destruct (constant_load_rows_rank util _ _ _ j Hj) as (Hjlt & Hload & Hrank).
    destruct (lookup_lt_is_Some_2 _ _ Hjlt) as [c Hc].
    exists j, (Command 1 (Z.of_nat (length params)) (Z.of_nat (length params))).
    split; [lia|]. split.
    { unfold utilized_constant_load in Hload.
      destruct (util !! j) as [[|]|]; [reflexivity|discriminate..]. }
    split.
    { simpl. rewrite (Hrows j c Hc), Hload, Hrank. reflexivity. }
    split; [reflexivity|]. right. simpl. lia.
  - destruct b; [|reflexivity]. exfalso.
    destruct (proj1 Hb eq_refl) as (j & c' & _ & Huj & Hc' & Hnode & Hparam).
    simpl in Hc', Hparam.
    assert (Hjlt : (j < length (_command_array self))%nat).
    { rewrite <- Hlen1. eapply lookup_lt_Some; eassumption. }
    destruct (lookup_lt_is_Some_2 _ _ Hjlt) as [c Hc].
    assert (Hload : utilized_constant_load util (_command_array self) j = true).
    { rewrite <- Hkeep. unfold utilized_constant_load. rewrite Huj, Hc'.
      apply Z.eqb_eq, Hnode. }
    rewrite (Hrows j c Hc), Hload in Hc'. injection Hc' as <-. simpl in Hparam.
    pose proof (rank_below_count util _ j Hjlt Hload) as Hbelow.
    unfold rank in Henough at 1. lia.
Qed.

(** X7: the number of optimization parameters never exceeds the complexity,
    and the complexity never exceeds the number of rows. *)
Theorem parameters_at_most_complexity_at_most_rows
    (self : AGraph) (util : list bool) :
  backend_get_utilized_commands (_command_array self) = Returns util ->
  length util = length (_command_array self) ->
  exists count complexity : Z,
    fst (get_number_local_optimization_params self) = Returns count
    /\ get_complexity self = (Returns complexity, self)
    /\ (0 <= count <= complexity)%Z
    /\ (complexity <= Z.of_nat (length (_command_array self)))%Z.
Proof.
  intros Hutil Hlen.
  destruct (get_number_local_optimization_params_run self util Hutil Hlen)
    as (a1 & Hrun & _ & _).
  eexists _, _. split; [rewrite Hrun; reflexivity|]. split.
  { unfold get_complexity, get_utilized_commands, bind, ret. rewrite Hutil.
    reflexivity. }
  assert (Hcount : forall n : nat,
             (n <= length util)%nat ->
             (constant_loads_between util (_command_array self) 0 n
              <= length (filter (fun u : bool => u = true) (take n util)))%nat).
  { induction n as [|n IH]; intros Hn.
    - unfold constant_loads_between. simpl. lia.
    - destruct (lookup_lt_is_Some_2 util n) as [u Hu]; [lia|].
      rewrite (take_S_r util n u Hu), filter_app, length_app.
      replace (S n) with (n + 1)%nat by lia.
      rewrite constant_loads_between_split, Nat.add_0_l. specialize (IH ltac:(lia)).
      unfold constant_loads_between at 2. change (seq n 1) with [n].
      destruct (utilized_constant_load util (_command_array self) n) eqn:Hload.
      + rewrite filter_cons_True by assumption. rewrite filter_nil.
        unfold utilized_constant_load in Hload. rewrite Hu in Hload.
        destruct u; [|discriminate].
        rewrite filter_cons_True by reflexivity. rewrite filter_nil. simpl. lia.
      + rewrite filter_cons_False by congruence. rewrite filter_nil. simpl. lia. }
  unfold np_count_nonzero, rank. split.
  - specialize (Hcount (length util) ltac:(lia)).
    rewrite firstn_all in Hcount. rewrite <- Hlen. lia.
  - pose proof (length_filter (fun u : bool => u = true) util). lia.
Qed.

(** X8: [get_number_local_optimization_params] keeps a program within the
    data model: the rows it rewrites are constant-loads with an index that is
    not negative. *)
Theorem get_number_local_optimization_params_keeps_well_formed
    (self : AGraph) (util : list bool) :
  backend_get_utilized_commands (_command_array self) = Returns util ->
  length util = length (_command_array self) ->
  well_formed self ->
  well_formed (snd (get_number_local_optimization_params self)).
Proof.
  intros Hutil Hlen Hwf.
  destruct (get_number_local_optimization_params_run self util Hutil Hlen)
    as (a1 & Hrun & Hlen1 & Hrows).
  rewrite Hrun. unfold well_formed in *. simpl.
  rewrite Forall_lookup in Hwf. apply Forall_lookup. intros j c1 Hc1.
  assert (Hjlt : (j < length (_command_array self))%nat).
  { rewrite <- Hlen1. eapply lookup_lt_Some; eassumption. }
  destruct (lookup_lt_is_Some_2 _ _ Hjlt) as [c Hc].
  rewrite (Hrows j c Hc) in Hc1. injection Hc1 as <-.
  destruct (utilized_constant_load util (_command_array self) j).
  - unfold well_formed_command. simpl.
    destruct (Z.leb_spec (-1) (Z.of_nat (rank util (_command_array self) j)));
      [reflexivity|lia].
  - exact (Hwf j c Hc).
Qed.

End WithBackend.

(** *** When the stack form cannot be rendered *)

Lemma stack_template_missing (opcode : Z) :
  (opcode < 2 \/ 12 < opcode)%Z ->
  dict_getitem STACK_PRINT_MAP opcode = Raises (Exn KeyError (str_of_int opcode)).
Proof.
  intros Hout. unfold STACK_PRINT_MAP. cbn [dict_getitem].
  repeat match goal with
         | |- context [(?k =? opcode)%Z] =>
             destruct (Z.eqb_spec k opcode); [lia|]
         end.
  reflexivity.
Qed.

Section Rendering.
Context {X FX DFX : Type} {the_backend : Backend X FX DFX}.
Variable str_of_float : float -> string.

Lemma _get_stack_element_string_unknown (self : AGraph) (i : nat) (c : command) :
  _command_array self !! i = Some c ->
  unknown_opcode c ->
  _get_stack_element_string str_of_float i self
  = (Raises (Exn KeyError (str_of_int (node c))), self).
Proof.
  intros Hc Hunknown. unfold unknown_opcode in Hunknown.
  unfold _get_stack_element_string, bind at 1. unfold row, np_getitem. rewrite Hc.
  unfold bind at 1. unfold gets at 1, id.
  destruct (Z.eqb_spec (node c) 0); [lia|].
  destruct (Z.eqb_spec (node c) 1); [lia|].
  unfold bind, lift. rewrite stack_template_missing by lia. reflexivity.
Qed.

Lemma _get_stack_string_from_unknown (self : AGraph) (c : command) :
  unknown_opcode c ->
  forall (k start : nat) (tmp_str : string) (rest : list bool),
    (forall (j : nat) (c' : command),
        (start <= j < start + k)%nat -> _command_array self !! j = Some c' ->
        well_formed_command c' = true) ->
    _command_array self !! (start + k)%nat = Some c ->
    _get_stack_string_from str_of_float (replicate k true ++ true :: rest)
      start tmp_str self
    = (Raises (Exn KeyError (str_of_int (node c))), self).
Proof.
  intros Hunknown. induction k as [|k IH]; intros start tmp_str rest Hbefore Hc.
  - rewrite Nat.add_0_r in Hc. simpl.
    unfold bind. rewrite (_get_stack_element_string_unknown self start c Hc Hunknown).
    reflexivity.
  - assert (Hstart : (start < length (_command_array self))%nat).
    { apply lookup_lt_Some in Hc. lia. }
    destruct (lookup_lt_is_Some_2 _ _ Hstart) as [c0 Hc0].
    destruct (_get_stack_element_string_returns str_of_float self start c0 Hc0)
      as [s Hs].
    { apply (Hbefore start c0); [lia|assumption]. }
    cbn [replicate app _get_stack_string_from].
    rewrite (bind_run _ _ _ _ _ Hs).
    apply IH.
    + intros j c' Hj. apply Hbefore. lia.
    + replace (S start + k)%nat with (start + S k)%nat by lia. assumption.
Qed.

(** X13: when the first row that cannot be rendered has an opcode outside
    the table, [str(self)] raises a [KeyError] for that opcode; and then, if
    the backend raises during an evaluation, the method logs its own message
    only and it is this [KeyError] that reaches the caller, not a
    [RuntimeError]; its context is the error of the backend. *)
Theorem evaluation_on_unknown_opcode_raises_key_error
    (self : AGraph) (i : nat) (c : command) :
  _command_array self !! i = Some c ->
  unknown_opcode c ->
  (forall (j : nat) (c' : command),
      (j < i)%nat -> _command_array self !! j = Some c' ->
      well_formed_command c' = true) ->
  __str__ str_of_float self = (Raises (Exn KeyError (str_of_int (node c))), self)
  /\ forall (x : X) (records : list string) (ex : exn),
       (backend_simplify_and_evaluate (_command_array self) x (_constants self)
        = Raises ex ->
        evaluate_equation_at str_of_float self x records
        = (Raises (with_context ex (Exn KeyError (str_of_int (node c)))),
           records ++ ["Error in stack evaluation"]))
       /\ (backend_simplify_and_evaluate_with_derivative
             (_command_array self) x (_constants self) true = Raises ex ->
           evaluate_equation_with_x_gradient_at str_of_float self x records
           = (Raises (with_context ex (Exn KeyError (str_of_int (node c)))),
              records ++ ["Error in stack evaluation/deriv"]))
       /\ (backend_simplify_and_evaluate_with_derivative
             (_command_array self) x (_constants self) false = Raises ex ->
           evaluate_equation_with_local_opt_gradient_at str_of_float self x records
           = (Raises (with_context ex (Exn KeyError (str_of_int (node c)))),
              records ++ ["Error in stack evaluation/const-deriv"])).
Proof.
  intros Hc Hunknown Hbefore.
  assert (Hstr : __str__ str_of_float self
                 = (Raises (Exn KeyError (str_of_int (node c))), self)).
  { assert (Hi : (i < length (_command_array self))%nat)
      by (eapply lookup_lt_Some; eassumption).
    unfold __str__, _get_stack_string. unfold bind at 1. unfold bind at 1.
    unfold gets at 1.
    replace (replicate (length (_command_array self)) true)
      with (replicate i true ++ true :: replicate (length (_command_array self) - S i) true).
    2:{ change (true :: ?l) with ([true] ++ l).
        change [true] with (replicate 1 true).
        rewrite <- !replicate_add. f_equal. lia. }
    rewrite (_get_stack_string_from_unknown self c Hunknown i 0 "" _).
    - reflexivity.
    - intros j c' Hj. apply Hbefore. lia.
    - exact Hc. }
  split; [exact Hstr|].
  intros x records ex. split; [|split]; intros Hex.
  - unfold evaluate_equation_at, try_except, lift. rewrite Hex.
    unfold bind, LOGGER_error, modify, _raise_runtime_error, bind, lift.
    rewrite Hstr. reflexivity.
  - unfold evaluate_equation_with_x_gradient_at, try_except, lift. rewrite Hex.
    unfold bind, LOGGER_error, modify, _raise_runtime_error, bind, lift.
    rewrite Hstr. reflexivity.
  - unfold evaluate_equation_with_local_opt_gradient_at, try_except, lift.
    rewrite Hex.
    unfold bind, LOGGER_error, modify, _raise_runtime_error, bind, lift.
    rewrite Hstr. reflexivity.
Qed.

(** *** The console and LaTeX forms *)

Lemma CONSOLE_PRINT_MAP_complete : complete_table CONSOLE_PRINT_MAP.
Proof.
  intros opcode Hrange.
  assert (Hcases : (opcode = 2 \/ opcode = 3 \/ opcode = 4 \/ opcode = 5 \/ opcode = 6
                    \/ opcode = 7 \/ opcode = 8 \/ opcode = 9 \/ opcode = 10
                    \/ opcode = 11 \/ opcode = 12)%Z) by lia.
  repeat destruct Hcases as [->|Hcases]; try subst opcode;
    (eexists; split; [reflexivity|]; intros a b; eexists; reflexivity).
Qed.

Lemma LATEX_PRINT_MAP_complete : complete_table LATEX_PRINT_MAP.
Proof.
  intros opcode Hrange.
  assert (Hcases : (opcode = 2 \/ opcode = 3 \/ opcode = 4 \/ opcode = 5 \/ opcode = 6
                    \/ opcode = 7 \/ opcode = 8 \/ opcode = 9 \/ opcode = 10
                    \/ opcode = 11 \/ opcode = 12)%Z) by lia.
  repeat destruct Hcases as [->|Hcases]; try subst opcode;
    (eexists; split; [reflexivity|]; intros a b; eexists; reflexivity).
Qed.

(** Formatting a row reads that row and the constants, and writes nothing. *)
Lemma _get_formatted_element_string_reads (self self' : AGraph) (i : nat)
    (str_list : list string) (format_dict : list (Z * string)) :
  _constants self = _constants self' ->
  _command_array self !! i = _command_array self' !! i ->
  fst (_get_formatted_element_string str_of_float i str_list format_dict self)
  = fst (_get_formatted_element_string str_of_float i str_list format_dict self')
  /\ snd (_get_formatted_element_string str_of_float i str_list format_dict self) = self
  /\ snd (_get_formatted_element_string str_of_float i str_list format_dict self')
     = self'.
Proof.
  intros Hconstants Hrow.
  unfold _get_formatted_element_string, bind, row, np_getitem, gets, id, lift, ret,
    unbound.
  rewrite <- Hrow, <- Hconstants.
  repeat case_match; simplify_eq; simpl; repeat split; reflexivity.
Qed.

Lemma _get_formatted_string_from_reads (self self' : AGraph)
    (format_dict : list (Z * string)) :
  _constants self = _constants self' ->
  forall (rows : list bool) (i : nat) (str_list : list string),
    (forall k : nat,
        rows !! k = Some true ->
        _command_array self !! (i + k)%nat = _command_array self' !! (i + k)%nat) ->
    fst (_get_formatted_string_from str_of_float rows i str_list format_dict self)
    = fst (_get_formatted_string_from str_of_float rows i str_list format_dict self')
    /\ snd (_get_formatted_string_from str_of_float rows i str_list format_dict self)
       = self
    /\ snd (_get_formatted_string_from str_of_float rows i str_list format_dict self')
       = self'.
Proof.
  intros Hconstants. induction rows as [|show rows IH]; intros i str_list Hrows.
  - repeat split.
  - assert (Hrest : forall k : nat,
               rows !! k = Some true ->
               _command_array self !! (S i + k)%nat
               = _command_array self' !! (S i + k)%nat).
    { intros k Hk. replace (S i + k)%nat with (i + S k)%nat by lia.
      apply Hrows. exact Hk. }
    cbn [_get_formatted_string_from]. destruct show.
    + destruct (_get_formatted_element_string_reads self self' i str_list format_dict
                  Hconstants) as (Hfst & Hsnd & Hsnd').
      { specialize (Hrows 0%nat eq_refl). rewrite Nat.add_0_r in Hrows. exact Hrows. }
      unfold bind.
      destruct (_get_formatted_element_string str_of_float i str_list format_dict self)
        as [o w]. 
      destruct (_get_formatted_element_string str_of_float i str_list format_dict self')
        as [o' w'].
      simpl in Hfst, Hsnd, Hsnd'. subst o' w w'.
      destruct o as [tmp_str|e]; [|repeat split].
      apply IH. exact Hrest.
    + apply IH. exact Hrest.
Qed.

(** X14: the console and LaTeX forms ignore the rows that are not utilized:
    two programs with the same constants and the same liveness vector that
    agree on every utilized row have the same formatted string (or fail with
    the same error), whatever the other rows hold. *)
Theorem formatted_string_ignores_unused_rows
    (self self' : AGraph) (util : list bool) :
  backend_get_utilized_commands (_command_array self) = Returns util ->
  backend_get_utilized_commands (_command_array self') = Returns util ->
  _constants self = _constants self' ->
  (forall i : nat,
      util !! i = Some true ->
      _command_array self !! i = _command_array self' !! i) ->
  fst (get_console_string str_of_float self)
  = fst (get_console_string str_of_float self')
  /\ fst (get_latex_string str_of_float self)
     = fst (get_latex_string str_of_float self').
Proof.
  intros Hutil Hutil' Hconstants Hrows.
  assert (Hany : forall format_dict : list (Z * string),
             fst (_get_formatted_string_using str_of_float format_dict self)
             = fst (_get_formatted_string_using str_of_float format_dict self')).
  { intros format_dict.
    unfold _get_formatted_string_using, get_utilized_commands. unfold bind at 1 3.
    rewrite Hutil, Hutil'.
    destruct (_get_formatted_string_from_reads self self' format_dict Hconstants
                util 0 []) as (Hfst & _ & _).
    { intros k Hk. apply Hrows. exact Hk. }
    unfold bind.
    destruct (_get_formatted_string_from str_of_float util 0 [] format_dict self)
      as [o w].
    destruct (_get_formatted_string_from str_of_float util 0 [] format_dict self')
      as [o' w'].
    simpl in Hfst. subst o'. destruct o; reflexivity. }
  split; apply Hany.
Qed.

Lemma _get_formatted_element_string_returns (self : AGraph) (i : nat) (c : command)
    (str_list : list string) (format_dict : list (Z * string)) :
  complete_table format_dict ->
  _command_array self !! i = Some c ->
  formattable_row i c ->
  length str_list = i ->
  exists s : string,
    _get_formatted_element_string str_of_float i str_list format_dict self
    = (Returns s, self).
Proof.
  intros Htable Hc (Hopcode & Hconstant & Hoperands) Hlen.
  unfold _get_formatted_element_string, bind at 1. unfold row, np_getitem. rewrite Hc.
  unfold bind at 1. unfold gets at 1, id.
  destruct (Z.eqb_spec (node c) 0) as [Hzero|Hzero].
  { eexists. reflexivity. }
  destruct (Z.eqb_spec (node c) 1) as [Hone|Hone].
  - destruct (unbound self c) eqn:Hunbound.
    { eexists. reflexivity. }
    unfold unbound in Hunbound. apply orb_false_iff in Hunbound.
    destruct Hunbound as [Hminus Hbound].
    apply Z.eqb_neq in Hminus. specialize (Hconstant Hone).
    assert (Hlt : (param1 c < Z.of_nat (length (_constants self)))%Z).
    { destruct (Z.geb_spec (param1 c) (Z.of_nat (length (_constants self))));
        [discriminate|lia]. }
    unfold bind, lift, py_getitem.
    destruct (Z.ltb_spec (param1 c) 0); [lia|].
    destruct (Z.leb_spec 0 (param1 c)); [|lia].
    destruct (Z.ltb_spec (param1 c) (Z.of_nat (length (_constants self)))); [|lia].
    simpl.
    destruct (lookup_lt_is_Some_2 (_constants self) (Z.to_nat (param1 c)))
      as [value Hvalue]; [lia|].
    rewrite Hvalue. eexists. reflexivity.
  - destruct (Htable (node c)) as (template & Htemplate & Hformat); [lia|].
    destruct Hoperands as [Hp1 Hp2]; [lia|].
    assert (Hread : forall k : Z,
               (0 <= k < Z.of_nat i)%Z ->
               exists operand : string, py_getitem str_list k = Returns operand).
    { intros k Hk. unfold py_getitem. rewrite Hlen.
      destruct (Z.ltb_spec k 0); [lia|].
      destruct (Z.leb_spec 0 k); [|lia].
      destruct (Z.ltb_spec k (Z.of_nat i)); [|lia].
      simpl.
      destruct (lookup_lt_is_Some_2 str_list (Z.to_nat k)) as [operand Hoperand];
        [lia|].
      rewrite Hoperand. eexists. reflexivity. }
    destruct (Hread (param1 c) Hp1) as [operand_1 H1].
    destruct (Hread (param2 c) Hp2) as [operand_2 H2].
    destruct (Hformat operand_1 operand_2) as [s Hs].
    unfold bind, lift. rewrite Htemplate, H1, H2, Hs. eexists. reflexivity.
Qed.

Lemma _get_formatted_string_from_returns (self : AGraph) (util : list bool)
    (format_dict : list (Z * string)) :
  complete_table format_dict ->
  formattable util (_command_array self) ->
  forall (rows : list bool) (i : nat) (str_list : list string),
    length str_list = i ->
    (forall k : nat, rows !! k = util !! (i + k)%nat) ->
    (i + length rows <= length (_command_array self))%nat ->
    exists str_list' : list string,
      _get_formatted_string_from str_of_float rows i str_list format_dict self
      = (Returns str_list', self)
      /\ length str_list' = (i + length rows)%nat.
Proof.
  intros Htable Hformattable.
  induction rows as [|show rows IH]; intros i str_list Hlen Hrows Hbound.
  - exists str_list. split; [reflexivity|]. simpl. lia.
  - simpl in Hbound.
    assert (Hrest : forall k : nat, rows !! k = util !! (S i + k)%nat).
    { intros k. replace (S i + k)%nat with (i + S k)%nat by lia.
      rewrite <- Hrows. reflexivity. }
    cbn [_get_formatted_string_from]. destruct show.
    + destruct (lookup_lt_is_Some_2 (_command_array self) i) as [c Hc]; [lia|].
      destruct (_get_formatted_element_string_returns self i c str_list format_dict
                  Htable Hc) as [s Hs]; [|assumption|].
      { apply (Hformattable i c); [|assumption].
        specialize (Hrows 0%nat). rewrite Nat.add_0_r in Hrows.
        rewrite <- Hrows. reflexivity. }
      rewrite (bind_run _ _ _ _ _ Hs).
      destruct (IH (S i) (str_list ++ [s])) as (str_list' & Hrun & Hlen');
        [rewrite length_app; simpl; lia|assumption|lia|].
      exists str_list'. split; [assumption|]. simpl. lia.
    + destruct (IH (S i) (str_list ++ [""%string])) as (str_list' & Hrun & Hlen');
        [rewrite length_app; simpl; lia|assumption|lia|].
      exists str_list'. split; [assumption|]. simpl. lia.
Qed.

(** X15: the console and the LaTeX form of a program are produced without
    error when the program has at least one row and every utilized row has an
    opcode of the table, a constant index that is -1 or a position, and, for
    an operator, two parameters that are indices of earlier rows. *)
Theorem formatted_strings_of_valid_programs
    (self : AGraph) (util : list bool) :
  backend_get_utilized_commands (_command_array self) = Returns util ->
  length util = length (_command_array self) ->
  (0 < length (_command_array self))%nat ->
  formattable util (_command_array self) ->
  (exists s : string, get_console_string str_of_float self = (Returns s, self))
  /\ (exists s : string, get_latex_string str_of_float self = (Returns s, self)).
Proof.
  intros Hutil Hlen Hrows Hformattable.
  assert (Hany : forall format_dict : list (Z * string),
             complete_table format_dict ->
             exists s : string,
               _get_formatted_string_using str_of_float format_dict self
               = (Returns s, self)).
  { intros format_dict Htable.
    destruct (_get_formatted_string_from_returns self util format_dict Htable
                Hformattable util 0 []) as (str_list & Hrun & Hlength);
      [reflexivity|reflexivity|lia|].
    unfold _get_formatted_string_using, get_utilized_commands. unfold bind at 1.
    rewrite Hutil. rewrite (bind_run _ _ _ _ _ Hrun).
    unfold lift, py_getitem. simpl in Hlength.
    destruct (Z.ltb_spec (-1) 0); [|lia].
    destruct (Z.leb_spec 0 (-1 + Z.of_nat (length str_list))); [|lia].
    destruct (Z.ltb_spec (-1 + Z.of_nat (length str_list))
                (Z.of_nat (length str_list))); [|lia].
    simpl.
    destruct (lookup_lt_is_Some_2 str_list
                (Z.to_nat (-1 + Z.of_nat (length str_list)))) as [s Hs]; [lia|].
    rewrite Hs. eexists. reflexivity. }
  split.
  - apply Hany, CONSOLE_PRINT_MAP_complete.
  - apply Hany, LATEX_PRINT_MAP_complete.
Qed.

(** X17: both operands of an operator row are read before its template is
    filled: when the second parameter is not an index into the strings built
    so far, formatting the row raises an [IndexError], also for an operator of
    one argument, whose template has no place for a second operand. *)
Theorem formatted_element_reads_both_operands
    (self : AGraph) (i : nat) (c : command) (str_list : list string)
    (format_dict : list (Z * string)) :
  complete_table format_dict ->
  _command_array self !! i = Some c ->
  (2 <= node c <= 12)%Z ->
  length str_list = i ->
  (0 <= param1 c < Z.of_nat i)%Z ->
  (param2 c < - Z.of_nat i \/ Z.of_nat i <= param2 c)%Z ->
  _get_formatted_element_string str_of_float i str_list format_dict self
  = (Raises (Exn IndexError "list index out of range"), self).
Proof.
  intros Htable Hc Hopcode Hlen Hp1 Hp2.
  unfold _get_formatted_element_string, bind at 1. unfold row, np_getitem. rewrite Hc.
  unfold bind at 1. unfold gets at 1, id.
  destruct (Z.eqb_spec (node c) 0); [lia|].
  destruct (Z.eqb_spec (node c) 1); [lia|].
  destruct (Htable (node c) Hopcode) as (template & Htemplate & _).
  unfold bind, lift. rewrite Htemplate.
  assert (H1 : exists operand : string, py_getitem str_list (param1 c) = Returns operand).
  { unfold py_getitem. rewrite Hlen.
    destruct (Z.ltb_spec (param1 c) 0); [lia|].
    destruct (Z.leb_spec 0 (param1 c)); [|lia].
    destruct (Z.ltb_spec (param1 c) (Z.of_nat i)); [|lia].
    simpl.
    destruct (lookup_lt_is_Some_2 str_list (Z.to_nat (param1 c))) as [operand Hoperand];
      [lia|].
    rewrite Hoperand. eexists. reflexivity. }
  destruct H1 as [operand_1 H1]. rewrite H1.
  unfold py_getitem. rewrite Hlen.
  destruct (Z.ltb_spec (param2 c) 0).
  - destruct (Z.leb_spec 0 (param2 c + Z.of_nat i)); [lia|]. reflexivity.
  - destruct (Z.leb_spec 0 (param2 c)); [|lia].
    destruct (Z.ltb_spec (param2 c) (Z.of_nat i)); [lia|]. reflexivity.
Qed.

End Rendering.

(** *** The distance as a metric on programs of one height *)

Lemma row_differences_sym (ra rb : command) :
  row_differences ra rb = row_differences rb ra.
Proof.
  unfold row_differences.
  rewrite (Z.eqb_sym (node ra)), (Z.eqb_sym (param1 ra)), (Z.eqb_sym (param2 ra)).
  reflexivity.
Qed.

Lemma row_differences_bounds (ra rb : command) :
  (0 <= row_differences ra rb <= 3)%Z.
Proof.
  unfold row_differences.
  destruct (node ra =? node rb)%Z, (param1 ra =? param1 rb)%Z,
    (param2 ra =? param2 rb)%Z; simpl; lia.
Qed.

Lemma row_differences_zero (ra rb : command) :
  row_differences ra rb = 0%Z -> ra = rb.
Proof.
  unfold row_differences. destruct ra as [n1 p1 q1], rb as [n2 p2 q2]. simpl.
  destruct (Z.eqb_spec n1 n2), (Z.eqb_spec p1 p2), (Z.eqb_spec q1 q2);
    simpl; intros Hzero; try discriminate.
  congruence.
Qed.

Lemma row_differences_triangle (ra rb rc : command) :
  (row_differences ra rc <= row_differences ra rb + row_differences rb rc)%Z.
Proof.
  unfold row_differences.
  destruct (Z.eqb_spec (node ra) (node rb)), (Z.eqb_spec (node rb) (node rc)),
    (Z.eqb_spec (node ra) (node rc)),
    (Z.eqb_spec (param1 ra) (param1 rb)), (Z.eqb_spec (param1 rb) (param1 rc)),
    (Z.eqb_spec (param1 ra) (param1 rc)),
    (Z.eqb_spec (param2 ra) (param2 rb)), (Z.eqb_spec (param2 rb) (param2 rc)),
    (Z.eqb_spec (param2 ra) (param2 rc)); simpl; try lia; congruence.
Qed.

Lemma sum_differences_nonnegative (a b : list command) :
  (0 <= sum_differences a b)%Z.
Proof.
  revert b. induction a as [|ra a IH]; intros [|rb b]; simpl; try lia.
  pose proof (row_differences_bounds ra rb). specialize (IH b). lia.
Qed.

(** X9: between programs whose command arrays have the same height,
    [distance] is symmetric. *)
Theorem distance_symmetric
    (np_sum_not_equal_mismatched : list command -> list command -> outcome Z)
    (p q : AGraph) :
  length (command_array p) = length (command_array q) ->
  distance np_sum_not_equal_mismatched p q
  = distance np_sum_not_equal_mismatched q p.
Proof.
  intros Hlen. unfold distance. rewrite Hlen, Nat.eqb_refl. f_equal.
  clear Hlen. generalize (command_array q). generalize (command_array p).
  induction l as [|ra a IH]; intros [|rb b]; try reflexivity.
  cbn [sum_differences]. rewrite row_differences_sym, IH. reflexivity.
Qed.

(** X10: between programs of the same height, [distance] is 0 exactly when
    the two command arrays are equal, entry for entry; the constants and the
    fitness play no part. *)
Theorem distance_zero_iff_same_commands
    (np_sum_not_equal_mismatched : list command -> list command -> outcome Z)
    (p q : AGraph) :
  length (command_array p) = length (command_array q) ->
  distance np_sum_not_equal_mismatched p q = Returns 0%Z
  <-> command_array p = command_array q.
Proof.
  intros Hlen. unfold distance. rewrite Hlen, Nat.eqb_refl. split.
  - intros Hzero. injection Hzero as Hzero. revert Hlen Hzero.
    generalize (command_array q). generalize (command_array p).
    induction l as [|ra a IH]; intros [|rb b] Hlen Hzero; try discriminate.
    + reflexivity.
    + cbn [sum_differences] in Hzero. injection Hlen as Hlen.
      pose proof (row_differences_bounds ra rb).
      pose proof (sum_differences_nonnegative a b).
      rewrite (row_differences_zero ra rb) by lia.
      rewrite (IH b Hlen) by lia. reflexivity.
  - intros ->. rewrite sum_differences_same. reflexivity.
Qed.

(** X11: between three programs of the same height, [distance] satisfies the
    triangle inequality. *)
Theorem distance_triangle
    (np_sum_not_equal_mismatched : list command -> list command -> outcome Z)
    (p q r : AGraph) :
  length (command_array p) = length (command_array q) ->
  length (command_array q) = length (command_array r) ->
  exists dpq dqr dpr : Z,
    distance np_sum_not_equal_mismatched p q = Returns dpq
    /\ distance np_sum_not_equal_mismatched q r = Returns dqr
    /\ distance np_sum_not_equal_mismatched p r = Returns dpr
    /\ (dpr <= dpq + dqr)%Z.
Proof.
  intros Hpq Hqr. unfold distance.
  replace (length (command_array p) =? length (command_array r))%nat with true
    by (symmetry; apply Nat.eqb_eq; congruence).
  rewrite Hpq, Hqr, !Nat.eqb_refl.
  eexists _, _, _. repeat (split; [reflexivity|]).
  revert Hpq Hqr.
  generalize (command_array r). generalize (command_array q).
  generalize (command_array p).
  induction l as [|ra a IH]; intros [|rb b] [|rc c] Hab Hbc;
    try (simpl in Hab, Hbc; lia); [simpl; lia|].
  cbn [sum_differences]. injection Hab as Hab. injection Hbc as Hbc.
  pose proof (row_differences_triangle ra rb rc). specialize (IH b c Hab Hbc). lia.
Qed.

(** X12: between programs of the same height N, [distance] lies between 0
    and 3N. *)
Theorem distance_bounds
    (np_sum_not_equal_mismatched : list command -> list command -> outcome Z)
    (p q : AGraph) :
  length (command_array p) = length (command_array q) ->
  exists d : Z,
    distance np_sum_not_equal_mismatched p q = Returns d
    /\ (0 <= d <= 3 * Z.of_nat (length (command_array p)))%Z.
Proof.
  intros Hlen. unfold distance. rewrite Hlen, Nat.eqb_refl.
  eexists. split; [reflexivity|]. rewrite <- Hlen. revert Hlen.
  generalize (command_array q). generalize (command_array p).
  induction l as [|ra a IH]; intros [|rb b] Hlen;
    try (simpl in Hlen; lia); [simpl; lia|].
  cbn [sum_differences]. injection Hlen as Hlen.
  pose proof (row_differences_bounds ra rb). specialize (IH b Hlen).
  simpl length. lia.
Qed.

(** *** The theorems at work on concrete programs *)

Import Reference.

Lemma get_number_local_optimization_params_assigns_dense_slots_witness :
  exists self' : AGraph,
    get_number_local_optimization_params sum_of_constants = (Returns 2%Z, self')
    /\ _command_array self' !! 1%nat = Some (Command 1 0 0)
    /\ _command_array self' !! 2%nat = Some (Command 1 1 1).
Proof.
  destruct (get_number_local_optimization_params_assigns_dense_slots
              (the_backend := Reference.backend)
              sum_of_constants [false; true; true; true]
              ltac:(vm_compute; reflexivity) ltac:(reflexivity))
    as (self' & Hrun & _ & Hslots).
  exists self'. split; [exact Hrun|]. split.
  - apply (Hslots 0%nat 1%nat). reflexivity.
  - apply (Hslots 1%nat 2%nat). reflexivity.
Defined.

Lemma needs_local_optimization_after_binding_witness :
  exists (count : Z) (self1 : AGraph),
    get_number_local_optimization_params sum_of_constants = (Returns count, self1)
    /\ fst (needs_local_optimization
              (set_local_optimization_params [2%float; 5%float] self1))
       = Returns false
    /\ fst (needs_local_optimization
              (set_local_optimization_params [2%float] self1))
       = Returns true.
Proof.
  destruct (needs_local_optimization_after_binding
              (the_backend := Reference.backend)
              sum_of_constants [false; true; true; true] [2%float; 5%float]
              ltac:(vm_compute; reflexivity) ltac:(reflexivity))
    as (count & self1 & Hfirst & Henough).
  destruct (needs_local_optimization_after_binding
              (the_backend := Reference.backend)
              sum_of_constants [false; true; true; true] [2%float]
              ltac:(vm_compute; reflexivity) ltac:(reflexivity))
    as (count' & self1' & Hfirst' & Hfew).
  rewrite Hfirst in Hfirst'. injection Hfirst' as <- <-.
  assert (Hself1 : self1 = snd (get_number_local_optimization_params sum_of_constants))
    by (rewrite Hfirst; reflexivity).
  assert (Hcount : count = 2%Z).
  { assert (Returns count = fst (get_number_local_optimization_params sum_of_constants))
      as Heq by (rewrite Hfirst; reflexivity).
    vm_compute in Heq. injection Heq as ->. reflexivity. }
  exists count, self1. split; [exact Hfirst|]. split.
  - rewrite Henough by (rewrite Hself1; reflexivity). rewrite Hcount. reflexivity.
  - rewrite Hfew by (rewrite Hself1; reflexivity). rewrite Hcount. reflexivity.
Defined.

Lemma parameters_at_most_complexity_at_most_rows_witness :
  exists count complexity : Z,
    fst (get_number_local_optimization_params sum_of_constants) = Returns count
    /\ get_complexity sum_of_constants = (Returns complexity, sum_of_constants)
    /\ (0 <= count <= complexity)%Z
    /\ (complexity <= 4)%Z.
Proof.
  exact (parameters_at_most_complexity_at_most_rows
           (the_backend := Reference.backend)
           sum_of_constants [false; true; true; true]
           ltac:(vm_compute; reflexivity) ltac:(reflexivity)).
Defined.

Lemma get_number_local_optimization_params_keeps_well_formed_witness :
  well_formed (snd (get_number_local_optimization_params sum_of_constants)).
Proof.
  apply (get_number_local_optimization_params_keeps_well_formed
           (the_backend := Reference.backend)
           sum_of_constants [false; true; true; true]
           ltac:(vm_compute; reflexivity) ltac:(reflexivity)).
  repeat constructor.
Defined.

Lemma evaluation_on_unknown_opcode_raises_key_error_witness :
  evaluate_equation_at str_of_float Samples.with_unknown_opcode [[1%float]] []
  = (Raises (Raised KeyError "13"
               (Some (Exn (OtherError "NotImplementedError") "opcode not implemented"))),
     ["Error in stack evaluation"]).
Proof.
  destruct (evaluation_on_unknown_opcode_raises_key_error
              (the_backend := Reference.backend) str_of_float
              Samples.with_unknown_opcode 1 (Command 13 0 0) eq_refl
              ltac:(right; simpl; lia))
    as [_ Hhandler].
  - intros [|j] c' Hj Hc'; [|lia]. injection Hc' as <-. reflexivity.
  - apply (Hhandler [[1%float]] []
             (Exn (OtherError "NotImplementedError") "opcode not implemented")).
    reflexivity.
Defined.

Lemma formatted_string_ignores_unused_rows_witness :
  fst (get_console_string str_of_float sum_of_constants)
  = fst (get_console_string str_of_float Samples.sum_after_other_dead_row)
  /\ fst (get_latex_string str_of_float sum_of_constants)
     = fst (get_latex_string str_of_float Samples.sum_after_other_dead_row).
Proof.
  apply (formatted_string_ignores_unused_rows
           (the_backend := Reference.backend) str_of_float
           sum_of_constants Samples.sum_after_other_dead_row
           [false; true; true; true]
           ltac:(vm_compute; reflexivity) ltac:(vm_compute; reflexivity)
           ltac:(reflexivity)).
  intros [|[|[|[|i]]]] Hi; try reflexivity; discriminate.
Defined.

Lemma formatted_strings_of_valid_programs_witness :
  (exists s : string,
      get_console_string str_of_float Samples.product_minus_variable
      = (Returns s, Samples.product_minus_variable))
  /\ (exists s : string,
        get_latex_string str_of_float Samples.product_minus_variable
        = (Returns s, Samples.product_minus_variable)).
Proof.
  apply (formatted_strings_of_valid_programs
           (the_backend := Reference.backend) str_of_float
           Samples.product_minus_variable [true; true; true; true]
           ltac:(vm_compute; reflexivity) ltac:(reflexivity)
           ltac:(simpl; lia)).
  intros [|[|[|[|i]]]] c Hi Hc; try discriminate;
    injection Hc as <-; unfold formattable_row; simpl; lia.
Defined.

Lemma formatted_element_reads_both_operands_witness :
  _get_formatted_element_string str_of_float 1
    ["X_0"%string] CONSOLE_PRINT_MAP
    (with_command_array [Command 0 0 0; Command 6 0 7] Samples.empty)
  = (Raises (Exn IndexError "list index out of range"),
     with_command_array [Command 0 0 0; Command 6 0 7] Samples.empty).
Proof.
  apply (formatted_element_reads_both_operands str_of_float
           (with_command_array [Command 0 0 0; Command 6 0 7] Samples.empty)
           1 (Command 6 0 7) ["X_0"%string] CONSOLE_PRINT_MAP
           CONSOLE_PRINT_MAP_complete eq_refl);
    simpl; try reflexivity; lia.
Defined.

Lemma distance_symmetric_witness :
  distance np_sum_not_equal_mismatched
    Samples.product_minus_variable Samples.variable_plus_constant
  = distance np_sum_not_equal_mismatched
      Samples.variable_plus_constant Samples.product_minus_variable.
Proof.
  apply (distance_symmetric np_sum_not_equal_mismatched
           Samples.product_minus_variable Samples.variable_plus_constant).
  reflexivity.
Defined.

Lemma distance_zero_iff_same_commands_witness :
  distance np_sum_not_equal_mismatched sum_of_constants
    (set_local_optimization_params [2%float] sum_of_constants) = Returns 0%Z.
Proof.
  apply (distance_zero_iff_same_commands np_sum_not_equal_mismatched
           sum_of_constants
           (set_local_optimization_params [2%float] sum_of_constants));
    reflexivity.
Defined.

Lemma distance_triangle_witness :
  exists dpq dqr dpr : Z,
    distance np_sum_not_equal_mismatched
      sum_of_constants Samples.product_minus_variable = Returns dpq
    /\ distance np_sum_not_equal_mismatched
         Samples.product_minus_variable Samples.variable_plus_constant = Returns dqr
    /\ distance np_sum_not_equal_mismatched
         sum_of_constants Samples.variable_plus_constant = Returns dpr
    /\ (dpr <= dpq + dqr)%Z.
Proof.
  apply (distance_triangle np_sum_not_equal_mismatched sum_of_constants
           Samples.product_minus_variable Samples.variable_plus_constant);
    reflexivity.
Defined.

Lemma distance_bounds_witness :
  exists d : Z,
    distance np_sum_not_equal_mismatched
      Samples.product_minus_variable Samples.variable_plus_constant = Returns d
    /\ (0 <= d <= 12)%Z.
Proof.
  apply (distance_bounds np_sum_not_equal_mismatched
           Samples.product_minus_variable Samples.variable_plus_constant).
  reflexivity.
Defined.

End AGraphMoreFacts.
